(** * FarmAssist Pro backend: the AI-response normalisation pipeline

    A shallow embedding of [main.py]: the JSON extractor, the field
    translator, the medicine-link lookup, the image validation gate and the
    three analysis endpoints, followed by the properties the specification
    states about them.

    Conventions of the embedding.
    - A Python [str] is a Rocq [string]; its characters are read as the code
      points U+0000..U+00FF.  Code points above U+00FF are outside the
      modelled alphabet.
    - A Python object as produced by [json.loads] (the [Any] of
      [Dict[str, Any]]) is a [value].  A [dict] is an association list in
      insertion order with unique keys.
    - A raised exception is the [Raise] branch of [result].
    - The generative-AI provider is a function from the requests issued so
      far and the current request to a [reply]; the list of requests issued
      is the state threaded through every effectful function. *)

From Stdlib Require Import String Ascii ZArith List Lia Bool Arith DecimalString.
Import ListNotations.
Open Scope string_scope.

(* ================================================================== *)
(** ** Python strings *)

Module Py.

(** The double quote, kept out of string literals. *)
Definition dquote : ascii := "034"%char.
Definition backtick : ascii := "096"%char.

(** [dq s] is [s] with every backtick turned into a double quote: the way
    texts that contain double quotes are written in this file. *)
Fixpoint dq (s : string) : string :=
  match s with
  | EmptyString => EmptyString
  | String c r => String (if Ascii.eqb c backtick then dquote else c) (dq r)
  end.

Definition nl : string := String "010"%char EmptyString.

Definition in_range (lo hi : nat) (c : ascii) : bool :=
  let n := nat_of_ascii c in (lo <=? n)%nat && (n <=? hi)%nat.

(** [str.lower()] on one character: A-Z and the upper-case letters of the
    Latin-1 block (U+00C0..U+00DE, without the multiplication sign). *)
Definition lower_char (c : ascii) : ascii :=
  if in_range 65 90 c || in_range 192 214 c || in_range 216 222 c
  then ascii_of_nat (nat_of_ascii c + 32)
  else c.

Fixpoint lower (s : string) : string :=
  match s with
  | EmptyString => EmptyString
  | String c r => String (lower_char c) (lower r)
  end.

(** [str.isspace()] on one character: what [str.strip()] removes. *)
Definition is_space (c : ascii) : bool :=
  in_range 9 13 c || in_range 28 32 c
  || (nat_of_ascii c =? 133)%nat || (nat_of_ascii c =? 160)%nat.

Fixpoint lstrip (s : string) : string :=
  match s with
  | EmptyString => EmptyString
  | String c r => if is_space c then lstrip r else s
  end.

Fixpoint rstrip (s : string) : string :=
  match s with
  | EmptyString => EmptyString
  | String c r =>
      match rstrip r with
      | EmptyString => if is_space c then EmptyString else String c EmptyString
      | r' => String c r'
      end
  end.

Definition strip (s : string) : string := rstrip (lstrip s).

(** [s.startswith(p)]. *)
Fixpoint startswith (p s : string) : bool :=
  match p with
  | EmptyString => true
  | String a p' =>
      match s with
      | EmptyString => false
      | String b s' => Ascii.eqb a b && startswith p' s'
      end
  end.

(** [s[n:]]. *)
Fixpoint drop (n : nat) (s : string) : string :=
  match n with
  | O => s
  | S n' => match s with EmptyString => EmptyString | String _ r => drop n' r end
  end.

(** [needle in hay] for two strings. *)
Fixpoint contains (needle hay : string) : bool :=
  if startswith needle hay then true
  else match hay with
       | EmptyString => false
       | String _ r => contains needle r
       end.

(** [sep.join(parts)]. *)
Fixpoint join (sep : string) (parts : list string) : string :=
  match parts with
  | [] => EmptyString
  | [p] => p
  | p :: rest => p ++ sep ++ join sep rest
  end.

(** The one-character strings a [for] loop over a [str] visits. *)
Fixpoint chars (s : string) : list string :=
  match s with
  | EmptyString => []
  | String c r => String c EmptyString :: chars r
  end.

Definition hex_digit (n : nat) : ascii :=
  if (n <? 10)%nat then ascii_of_nat (48 + n) else ascii_of_nat (87 + n).

(** A character [isprintable()] accepts. *)
Definition printable (c : ascii) : bool :=
  let n := nat_of_ascii c in
  ((32 <=? n) && (n <? 127) || (161 <=? n) && negb (n =? 173))%nat.

(** [repr(s)] for a string: quote choice and escapes. *)
Definition repr_char (quote c : ascii) : string :=
  let n := nat_of_ascii c in
  if Ascii.eqb c quote || Ascii.eqb c "092"%char
  then String "092"%char (String c EmptyString)
  else if (n =? 9)%nat then "\t"
  else if (n =? 10)%nat then "\n"
  else if (n =? 13)%nat then "\r"
  else if printable c then String c EmptyString
  else String "092"%char
         (String "x"%char
            (String (hex_digit (n / 16)) (String (hex_digit (n mod 16)) EmptyString))).

Fixpoint repr_body (quote : ascii) (s : string) : string :=
  match s with
  | EmptyString => EmptyString
  | String c r => repr_char quote c ++ repr_body quote r
  end.

Definition repr_str (s : string) : string :=
  let sq := "039"%char in
  let quote :=
    if contains (String sq EmptyString) s && negb (contains (String dquote EmptyString) s)
    then dquote else sq in
  String quote (repr_body quote s ++ String quote EmptyString).

(** [str(n)] for an [int]. *)
Definition str_int (z : Z) : string := NilZero.string_of_int (Z.to_int z).

End Py.

(* ================================================================== *)
(** ** Python objects *)

(** What [json.loads] can return.  A [float] is kept as the literal that
    denoted it; IEEE arithmetic is not modelled. *)
Unset Elimination Schemes.
Inductive value : Type :=
| PyNone
| PyBool (b : bool)
| PyInt (z : Z)
| PyFloat (lit : string)
| PyStr (s : string)
| PyList (items : list value)
| PyDict (entries : list (string * value)).
Set Elimination Schemes.

Definition dict : Type := list (string * value).

Inductive exn : Type :=
| HTTPException (status_code : Z) (detail : string)
| TypeError
| AttributeError
| KeyError
| IndexError
| JSONDecodeError
| IOError.

Inductive result (A : Type) : Type :=
| Ok (a : A)
| Raise (e : exn).
Arguments Ok {A} a.
Arguments Raise {A} e.

Definition rbind {A B} (r : result A) (k : A -> result B) : result B :=
  match r with
  | Ok a => k a
  | Raise e => Raise e
  end.

(** [d.get(k)] on a [dict], [None] when the key is absent. *)
Fixpoint dict_get (d : dict) (k : string) : option value :=
  match d with
  | [] => None
  | (k', v) :: r => if String.eqb k' k then Some v else dict_get r k
  end.

(** [d[k] = v]: the key keeps its place when present, is appended when not. *)
Fixpoint dict_set (d : dict) (k : string) (v : value) : dict :=
  match d with
  | [] => [(k, v)]
  | (k', v') :: r =>
      if String.eqb k' k then (k, v) :: r else (k', v') :: dict_set r k v
  end.

Definition dict_mem (d : dict) (k : string) : bool :=
  match dict_get d k with Some _ => true | None => false end.

(** Truth value of the float a literal denotes: some digit of the mantissa
    is not zero ([NaN] and the infinities are true; a literal so small that
    it rounds to zero is outside the model). *)
Fixpoint mantissa_nonzero (s : string) : bool :=
  match s with
  | EmptyString => false
  | String c r =>
      if Ascii.eqb c "e"%char || Ascii.eqb c "E"%char then false
      else if Py.in_range 49 57 c || Ascii.eqb c "N"%char || Ascii.eqb c "I"%char then true
      else mantissa_nonzero r
  end.

(** [bool(v)]. *)
Definition truthy (v : value) : bool :=
  match v with
  | PyNone => false
  | PyBool b => b
  | PyInt z => negb (z =? 0)%Z
  | PyFloat lit => mantissa_nonzero lit
  | PyStr s => negb (String.eqb s EmptyString)
  | PyList l => match l with [] => false | _ => true end
  | PyDict d => match d with [] => false | _ => true end
  end.

(** [a or b]. *)
Definition py_or (a b : value) : value := if truthy a then a else b.

(** [o.get(k, default)]: only a [dict] has the method. *)
Definition py_get (o : value) (k : string) (default : value) : result value :=
  match o with
  | PyDict d => Ok (match dict_get d k with Some v => v | None => default end)
  | _ => Raise AttributeError
  end.

(** [o[0]]. *)
Definition py_first (o : value) : result value :=
  match o with
  | PyList (x :: _) => Ok x
  | PyList [] => Raise IndexError
  | PyStr (String c _) => Ok (PyStr (String c EmptyString))
  | PyStr EmptyString => Raise IndexError
  | PyDict _ => Raise KeyError
  | _ => Raise TypeError
  end.

(** [o[k]] for a string key. *)
Definition py_item (o : value) (k : string) : result value :=
  match o with
  | PyDict d => match dict_get d k with Some v => Ok v | None => Raise KeyError end
  | _ => Raise TypeError
  end.

(** [k in o] for a string [k]. *)
Definition py_in (k : string) (o : value) : result bool :=
  match o with
  | PyDict d => Ok (dict_mem d k)
  | PyList l =>
      Ok (existsb (fun x => match x with PyStr s => String.eqb s k | _ => false end) l)
  | PyStr s => Ok (Py.contains k s)
  | _ => Raise TypeError
  end.

(** The items a [for] loop over [o] visits. *)
Definition py_iter (o : value) : result (list value) :=
  match o with
  | PyList l => Ok l
  | PyDict d => Ok (map (fun kv => PyStr (fst kv)) d)
  | PyStr s => Ok (map PyStr (Py.chars s))
  | _ => Raise TypeError
  end.

(** [o.lower()]: only a [str] has the method. *)
Definition py_lower (o : value) : result string :=
  match o with
  | PyStr s => Ok (Py.lower s)
  | _ => Raise AttributeError
  end.

(** [repr] of a float: the three constants print in lower case, any other
    float is printed as its literal. *)
Definition float_repr (lit : string) : string :=
  if String.eqb lit "NaN" then "nan"
  else if String.eqb lit "Infinity" then "inf"
  else if String.eqb lit "-Infinity" then "-inf"
  else lit.

(** [repr(o)] and [str(o)], the latter being what an f-string inserts. *)
Fixpoint py_repr (o : value) : string :=
  match o with
  | PyNone => "None"
  | PyBool true => "True"
  | PyBool false => "False"
  | PyInt z => Py.str_int z
  | PyFloat lit => float_repr lit
  | PyStr s => Py.repr_str s
  | PyList l => "[" ++ Py.join ", " (map py_repr l) ++ "]"
  | PyDict d =>
      "{" ++ Py.join ", "
               (map (fun kv => Py.repr_str (fst kv) ++ ": " ++ py_repr (snd kv)) d)
          ++ "}"
  end.

Definition py_str (o : value) : string :=
  match o with
  | PyStr s => s
  | _ => py_repr o
  end.

(* ================================================================== *)
(** ** The JSON decoder of the standard library

    [json.loads] as the scanner of [json.decoder] reads a text: recursive
    descent over objects, arrays, strings, numbers and the constants.  The
    recursion is on a fuel bound taken from the length of the text, which
    is never what makes a text fail ([loads_fuel] below).  The recursion
    limit of the interpreter and its limit on the digits of an integer are
    not modelled. *)

Module Json.

Definition is_ws (c : ascii) : bool :=
  Ascii.eqb c " "%char || Ascii.eqb c "009"%char
  || Ascii.eqb c "010"%char || Ascii.eqb c "013"%char.

Fixpoint skip_ws (s : string) : string :=
  match s with
  | EmptyString => EmptyString
  | String c r => if is_ws c then skip_ws r else s
  end.

Definition is_digit (c : ascii) : bool := Py.in_range 48 57 c.

(** The digits [s] starts with, and what follows them. *)
Fixpoint span_digits (s : string) : string * string :=
  match s with
  | EmptyString => (EmptyString, EmptyString)
  | String c r =>
      if is_digit c
      then let (ds, rest) := span_digits r in (String c ds, rest)
      else (EmptyString, s)
  end.

Fixpoint digits_value (acc : Z) (ds : string) : Z :=
  match ds with
  | EmptyString => acc
  | String c r => digits_value (10 * acc + Z.of_nat (nat_of_ascii c - 48)) r
  end.

Definition hex_value (c : ascii) : option nat :=
  let n := nat_of_ascii c in
  if Py.in_range 48 57 c then Some (n - 48)
  else if Py.in_range 97 102 c then Some (n - 87)
  else if Py.in_range 65 70 c then Some (n - 55)
  else None.

(** The character a backslash escape other than [\u] denotes. *)
Definition unescape (e : ascii) : option ascii :=
  if Ascii.eqb e Py.dquote then Some Py.dquote
  else if Ascii.eqb e "092"%char then Some "092"%char
  else if Ascii.eqb e "/"%char then Some "/"%char
  else if Ascii.eqb e "b"%char then Some "008"%char
  else if Ascii.eqb e "f"%char then Some "012"%char
  else if Ascii.eqb e "n"%char then Some "010"%char
  else if Ascii.eqb e "r"%char then Some "013"%char
  else if Ascii.eqb e "t"%char then Some "009"%char
  else None.

Definition cons_char (c : ascii) (r : option (string * string))
  : option (string * string) :=
  match r with
  | Some (body, rest) => Some (String c body, rest)
  | None => None
  end.

(** [scanstring]: the text after an opening quote, up to the closing one.
    Control characters are refused (strict mode); an escape [\uXXXX] is
    decoded when it denotes a character of the modelled alphabet. *)
Fixpoint scanstring (s : string) : option (string * string) :=
  match s with
  | EmptyString => None
  | String c r =>
      if Ascii.eqb c Py.dquote then Some (EmptyString, r)
      else if Ascii.eqb c "092"%char then
        match r with
        | EmptyString => None
        | String e r1 =>
            if Ascii.eqb e "u"%char then
              match r1 with
              | String h1 (String h2 (String h3 (String h4 r2))) =>
                  match hex_value h1, hex_value h2, hex_value h3, hex_value h4 with
                  | Some a, Some b, Some c', Some d =>
                      if (a =? 0)%nat && (b =? 0)%nat
                      then cons_char (ascii_of_nat (16 * c' + d)) (scanstring r2)
                      else None
                  | _, _, _, _ => None
                  end
              | _ => None
              end
            else
              match unescape e with
              | Some ch => cons_char ch (scanstring r1)
              | None => None
              end
        end
      else if (nat_of_ascii c <? 32)%nat then None
      else cons_char c (scanstring r)
  end.

(** The parts of a number, each with the text after it: the sign, the
    integer part (a lone zero, or a nonzero digit and more digits), the
    fraction (a point and at least one digit) and the exponent (which is
    given up when no digit follows it). *)
Definition number_sign (s : string) : string * string :=
  match s with
  | String c r => if Ascii.eqb c "-"%char then ("-", r) else (EmptyString, s)
  | EmptyString => (EmptyString, s)
  end.

Definition number_int (s : string) : option (string * string) :=
  match s with
  | String c r =>
      if Ascii.eqb c "0"%char then Some ("0", r)
      else if Py.in_range 49 57 c
      then let (ds, rest) := span_digits r in Some (String c ds, rest)
      else None
  | EmptyString => None
  end.

Definition number_frac (s : string) : string * string :=
  match s with
  | String c (String d r) =>
      if Ascii.eqb c "."%char && is_digit d
      then let (ds, rest) := span_digits (String d r) in (String c ds, rest)
      else (EmptyString, s)
  | _ => (EmptyString, s)
  end.

Definition number_exp (s : string) : string * string :=
  match s with
  | String e r =>
      if Ascii.eqb e "e"%char || Ascii.eqb e "E"%char then
        let (sg, r1) :=
          match r with
          | String c r' =>
              if Ascii.eqb c "-"%char || Ascii.eqb c "+"%char
              then (String c EmptyString, r') else (EmptyString, r)
          | EmptyString => (EmptyString, r)
          end in
        let (ds, rest) := span_digits r1 in
        match ds with
        | EmptyString => (EmptyString, s)
        | _ => (String e (sg ++ ds), rest)
        end
      else (EmptyString, s)
  | EmptyString => (EmptyString, s)
  end.

(** The number a text starts with.  An integer becomes an [int], anything
    with a fraction or an exponent a [float]. *)
Definition match_number (s : string) : option (value * string) :=
  let (sign, s1) := number_sign s in
  match number_int s1 with
  | None => None
  | Some (ip, s2) =>
      let (frac, s3) := number_frac s2 in
      let (expo, s4) := number_exp s3 in
      match frac, expo with
      | EmptyString, EmptyString =>
          let n := digits_value 0 ip in
          Some (PyInt (if String.eqb sign "-" then - n else n), s4)
      | _, _ => Some (PyFloat (sign ++ ip ++ frac ++ expo), s4)
      end
  end.

(** One JSON value at the start of [s], and the text after it. *)
Fixpoint scan_once (fuel : nat) (s : string) : option (value * string) :=
  match fuel with
  | O => None
  | S f =>
      match s with
      | EmptyString => None
      | String c r =>
          if Ascii.eqb c Py.dquote then
            match scanstring r with
            | Some (body, rest) => Some (PyStr body, rest)
            | None => None
            end
          else if Ascii.eqb c "{"%char then
            match skip_ws r with
            | String c1 r1 =>
                if Ascii.eqb c1 "}"%char then Some (PyDict [], r1)
                else parse_pairs f (skip_ws r) []
            | EmptyString => None
            end
          else if Ascii.eqb c "["%char then
            match skip_ws r with
            | String c1 r1 =>
                if Ascii.eqb c1 "]"%char then Some (PyList [], r1)
                else parse_items f (skip_ws r) []
            | EmptyString => None
            end
          else if Py.startswith "null" s then Some (PyNone, Py.drop 4 s)
          else if Py.startswith "true" s then Some (PyBool true, Py.drop 4 s)
          else if Py.startswith "false" s then Some (PyBool false, Py.drop 5 s)
          else if Py.startswith "NaN" s then Some (PyFloat "NaN", Py.drop 3 s)
          else if Py.startswith "Infinity" s then Some (PyFloat "Infinity", Py.drop 8 s)
          else if Py.startswith "-Infinity" s then Some (PyFloat "-Infinity", Py.drop 9 s)
          else match_number s
      end
  end

(** The pairs of an object, [s] standing at a key; [acc] holds the pairs
    read so far.  A repeated key keeps its first place and its last value. *)
with parse_pairs (fuel : nat) (s : string) (acc : dict) : option (value * string) :=
  match fuel with
  | O => None
  | S f =>
      match s with
      | EmptyString => None
      | String c r =>
          if Ascii.eqb c Py.dquote then
            match scanstring r with
            | None => None
            | Some (key, r1) =>
                match skip_ws r1 with
                | EmptyString => None
                | String c2 r2 =>
                    if Ascii.eqb c2 ":"%char then
                      match scan_once f (skip_ws r2) with
                      | None => None
                      | Some (v, r3) =>
                          let acc' := dict_set acc key v in
                          match skip_ws r3 with
                          | EmptyString => None
                          | String c4 r4 =>
                              if Ascii.eqb c4 "}"%char then Some (PyDict acc', r4)
                              else if Ascii.eqb c4 ","%char
                              then parse_pairs f (skip_ws r4) acc'
                              else None
                          end
                      end
                    else None
                end
            end
          else None
      end
  end

(** The items of an array, [s] standing at an item; [acc] holds the items
    read so far, last first. *)
with parse_items (fuel : nat) (s : string) (acc : list value) : option (value * string) :=
  match fuel with
  | O => None
  | S f =>
      match scan_once f s with
      | None => None
      | Some (v, r1) =>
          match skip_ws r1 with
          | EmptyString => None
          | String c2 r2 =>
              if Ascii.eqb c2 "]"%char then Some (PyList (rev (v :: acc)), r2)
              else if Ascii.eqb c2 ","%char
              then parse_items f (skip_ws r2) (v :: acc)
              else None
          end
      end
  end.

(** [json.loads(s)]: one value, surrounded by white space only. *)
Definition loads (s : string) : result value :=
  match scan_once (2 * String.length s + 2) (skip_ws s) with
  | Some (v, rest) =>
      match skip_ws rest with
      | EmptyString => Ok v
      | _ => Raise JSONDecodeError
      end
  | None => Raise JSONDecodeError
  end.

End Json.

(* ================================================================== *)
(** ** JSON extractor *)

(** The longest prefix of [s] that ends in a closing brace: what the greedy
    [[\s\S]*\}] matches at the start of [s]. *)
Fixpoint upto_last_close (s : string) : option string :=
  match s with
  | EmptyString => None
  | String c r =>
      match upto_last_close r with
      | Some p => Some (String c p)
      | None => if Ascii.eqb c "}"%char then Some (String c EmptyString) else None
      end
  end.

(** [re.search(r'\{[\s\S]*\}', text)]: the match at the leftmost position
    where one exists, [None] when there is none. *)
Fixpoint re_search (text : string) : option string :=
  match text with
  | EmptyString => None
  | String c r =>
      if Ascii.eqb c "{"%char then
        match upto_last_close r with
        | Some p => Some (String c p)
        | None => re_search r
        end
      else re_search r
  end.

(** [try: ... except Exception: return handler]. *)
Definition try_except {A} (body : result A) (handler : A) : A :=
  match body with
  | Ok a => a
  | Raise _ => handler
  end.

Definition safe_json_parse (text : string) : value :=
  try_except
    (match re_search text with
     | Some m => Json.loads m
     | None => Json.loads text
     end)
    (PyDict []).

(** The extractor as the specification words it: the span from the first
    opening brace to the last closing brace is parsed; if that parse fails
    the whole text is parsed; any failure gives the empty mapping. *)
Definition safe_json_parse_spec (text : string) : value :=
  match re_search text with
  | Some m =>
      match Json.loads m with
      | Ok v => v
      | Raise _ => try_except (Json.loads text) (PyDict [])
      end
  | None => try_except (Json.loads text) (PyDict [])
  end.


(* ================================================================== *)
(** ** Medicine-link lookup *)

Definition mapping : list (string * string) :=
  [ ("mancozeb", "https://www.bighaat.com/products/indofil-m-45-mancozeb-75-wp-500-gm");
    ("propiconazole", "https://www.bighaat.com/products/tilt-propiconazole-25-ec");
    ("copper oxychloride", "https://www.bighaat.com/products/copper-oxychloride-50-wp-500gm");
    ("carbendazim", "https://www.bighaat.com/products/bavistin-carbendazim-50-wp-100-gm");
    ("sulphur", "https://www.bighaat.com/products/sulfex-80-wdg-sulphur-1-kg");
    ("imidacloprid", "https://www.bighaat.com/products/command-imidacloprid-17-8-sl");
    ("chlorpyrifos", "https://www.bighaat.com/collections/insecticides");
    ("acetamiprid", "https://www.bighaat.com/collections/insecticides");
    ("thiamethoxam", "https://www.bighaat.com/collections/insecticides");
    ("neem", "https://www.bighaat.com/products/neem-oil-azadirachtin-300-ppm");
    ("urea", "https://www.bighaat.com/collections/fertilizers");
    ("npk", "https://www.bighaat.com/collections/fertilizers");
    ("dap", "https://www.bighaat.com/collections/fertilizers") ].

Definition fallback_url : string :=
  "https://www.bighaat.com/collections/pest-disease-management".

(** [for key, url in table: if key in t: return url], then the fallback. *)
Fixpoint lookup_link (table : list (string * string)) (t : string) : string :=
  match table with
  | [] => fallback_url
  | (key, url) :: rest => if Py.contains key t then url else lookup_link rest t
  end.

Definition get_medicine_link (primary_text : value) : result string :=
  rbind (py_lower (py_or primary_text (PyStr EmptyString))) (fun t =>
  Ok (lookup_link mapping t)).

(* ================================================================== *)
(** ** The provider and the effects of a request *)

(** A decoded RGB image. *)
Definition PILImage : Type := string.

(** What [generate_content] is called with. *)
Inductive request : Type :=
| Prompt (prompt : string)
| PromptImage (prompt : string) (image : PILImage).

(** What comes back: [Failed] when the call, or reading the [text] of the
    response, raises; otherwise the [text] of the response, which may be
    [None]. *)
Inductive reply : Type :=
| Failed
| Replied (text : option string).

(** The uploaded file: [read] gives its bytes or raises. *)
Record UploadFile : Type := { read : result string }.

(** Computations that issue provider calls and may raise. *)
Definition M (A : Type) : Type := list request -> result A * list request.

Definition ret {A} (a : A) : M A := fun st => (Ok a, st).

Definition raise {A} (e : exn) : M A := fun st => (Raise e, st).

Definition lift {A} (r : result A) : M A := fun st => (r, st).

Definition bind {A B} (m : M A) (k : A -> M B) : M B :=
  fun st =>
    match m st with
    | (Ok a, st') => k a st'
    | (Raise e, st') => (Raise e, st')
    end.

Notation "x <- m ;; k" := (bind m (fun x => k))
  (at level 61, m at next level, right associativity).

(** [try: body except Exception as e: handler e]. *)
Definition try_catch {A} (body : M A) (handler : exn -> M A) : M A :=
  fun st =>
    match body st with
    | (Ok a, st') => (Ok a, st')
    | (Raise e, st') => handler e st'
    end.

Fixpoint mapM {A B} (f : A -> M B) (l : list A) : M (list B) :=
  match l with
  | [] => ret []
  | x :: r => y <- f x ;; ys <- mapM f r ;; ret (y :: ys)
  end.

(** [o[k] = v]. *)
Definition py_setitem (o : value) (k : string) (v : value) : result value :=
  match o with
  | PyDict d => Ok (PyDict (dict_set d k v))
  | _ => Raise TypeError
  end.

(** [o[:3]]. *)
Definition py_slice3 (o : value) : result value :=
  match o with
  | PyList l => Ok (PyList (firstn 3 l))
  | PyStr s => Ok (PyStr (substring 0 3 s))
  | _ => Raise TypeError
  end.

(** [sep.join(o)]: every item must be a [str]. *)
Fixpoint strings_of (l : list value) : result (list string) :=
  match l with
  | [] => Ok []
  | PyStr s :: r => rbind (strings_of r) (fun ss => Ok (s :: ss))
  | _ :: _ => Raise TypeError
  end.

Definition py_join (sep : string) (o : value) : result string :=
  rbind (py_iter o) (fun items =>
  rbind (strings_of items) (fun ss => Ok (Py.join sep ss))).

(** [resp.text or EmptyString]. *)
Definition text_or_empty (text : option string) : string :=
  match text with
  | Some t => t
  | None => EmptyString
  end.

(** A provider that answers its n-th call with the n-th entry of a script
    and fails afterwards. *)
Definition scripted (script : list reply) : list request -> request -> reply :=
  fun issued _ => nth (List.length issued) script Failed.

(** A provider that answers an image prompt with [analysis] and any
    translation prompt with [translation]. *)
Definition answering (analysis translation : string) : list request -> request -> reply :=
  fun _ req =>
    match req with
    | PromptImage _ _ => Replied (Some analysis)
    | Prompt _ => Replied (Some translation)
    end.

(* ================================================================== *)
(** ** Prompts *)

Definition PLANT_PROMPT : string := Py.dq "
You are an agricultural plant pathologist.
Analyze this plant/crop image and return STRICT JSON only (no extra text) in this schema:
{
  `plant`: { `common_name`: ``, `scientific_name`: ``, `growth_stage`: `` },
  `health`: { `score`: 0, `observations`: [``] },
  `issues`: [
    { `name`: ``, `type`: `disease|pest|deficiency`, `severity`: `mild|moderate|severe`, `evidence`: [``] }
  ],
  `treatment`: {
    `chemical`: [ { `product`: ``, `dose`: ``, `notes`: `` } ],
    `organic`:  [ { `method`: ``, `dose`: ``, `notes`: `` } ]
  },
  `prevention`: [`short actionable tips`]
}
Be exact and specific. If uncertain, leave fields empty or omit entries. Do not fabricate.
".

Definition SOIL_PROMPT : string := Py.dq "
You are a soil scientist.
Analyze this soil image and return STRICT JSON only (no extra text) in this schema:
{
  `soil`: { `type`: ``, `color`: ``, `texture`: ``, `structure`: `` },
  `health`: { `ph_estimate`: `range like 6.5-7.0`, `organic_matter`: `low|medium|high`, `moisture`: `low|medium|high` },
  `nutrients`: { `nitrogen`: ``, `phosphorus`: ``, `potassium`: ``, `micronutrients`: [`optional`] },
  `suitable_crops`: [``, ``],
  `recommendations`: [`short actionable tips`],
  `fertilizer_plan`: [ { `product`: ``, `dose`: ``, `notes`: `` } ]
}
Be factual. Do not fabricate if image doesn't support an estimate.
".

Definition PEST_PROMPT : string := Py.dq "
You are an entomologist/plant protection expert.
Analyze this pest image and return STRICT JSON only (no extra text) in this schema:
{
  `pest`: { `common_name`: ``, `scientific_name`: ``, `life_stage`: ``, `size_estimate`: `` },
  `damage`: { `severity`: 0, `pattern`: ``, `affected_parts`: [``] },
  `hosts`: { `primary`: [``, ``], `secondary`: [``] },
  `control`: {
    `chemical`: [ { `product`: ``, `dose`: ``, `notes`: `` } ],
    `organic`:  [ { `method`: ``, `dose`: ``, `notes`: `` } ]
  },
  `prevention`: [`short actionable tips`]
}
Be exact and practical. Do not make up unknowns.
".

Definition VALIDATE_PROMPT : string :=
  "Is this image related to agriculture (plants/crops/soil/pests/farming)? Answer strictly 'Yes' or 'No'.".

(* ================================================================== *)
(** ** Field translator, model gateway and endpoints *)

Section Backend.

(** The provider behind [build_model().generate_content], and the decoder
    behind [PILImage.open(...).convert("RGB")] ([None] when it raises). *)
Variable gemini : list request -> request -> reply.
Variable open_rgb : string -> option PILImage.

(** One provider call; the request is recorded whether or not it fails. *)
Definition generate_content (req : request) : M (option string) :=
  fun issued =>
    match gemini issued req with
    | Failed => (Raise IOError, (issued ++ [req])%list)
    | Replied text => (Ok text, (issued ++ [req])%list)
    end.

Definition lang_name (target_lang : string) : string :=
  if String.eqb target_lang "hi" then "Hindi"
  else if String.eqb target_lang "kn" then "Kannada"
  else "English".

Definition translate_prompt (text : value) (target_lang : string) : string :=
  "Translate this to " ++ lang_name target_lang
    ++ ". Return only the translated text:" ++ Py.nl ++ Py.nl ++ py_str text.

Definition translate_text (text : value) (target_lang : string) : M value :=
  if negb (truthy text) || String.eqb target_lang "en" then ret text
  else
    try_catch
      (resp <- generate_content (Prompt (translate_prompt text target_lang)) ;;
       ret (PyStr (Py.strip (text_or_empty resp))))
      (fun _ => ret text).

Definition translate_list (items : value) (lang : string) : M value :=
  xs <- lift (py_iter (py_or items (PyList []))) ;;
  ys <- mapM (fun x => translate_text x lang) xs ;;
  ret (PyList ys).

Definition ask_gemini_json (prompt : string) (image : PILImage) : M value :=
  resp <- generate_content (PromptImage prompt image) ;;
  ret (safe_json_parse (text_or_empty resp)).

(** [img_bytes = await file.read()] and the decoding of the image. *)
Definition load_image (file : UploadFile) : M PILImage :=
  img_bytes <- lift (read file) ;;
  match open_rgb img_bytes with
  | Some image => ret image
  | None => raise IOError
  end.

Definition validate_image (file : UploadFile) (language : string) : M value :=
  try_catch
    (image <- load_image file ;;
     resp <- generate_content (PromptImage VALIDATE_PROMPT image) ;;
     let is_agri := Py.contains "yes" (Py.lower (Py.strip (text_or_empty resp))) in
     let message :=
       if is_agri then "Image validated successfully"
       else "Please upload an agriculture-related image" in
     translated <- translate_text (PyStr message) language ;;
     ret (PyDict [("success", PyBool true);
                  ("is_agricultural", PyBool is_agri);
                  ("message", translated)]))
    (fun _ =>
       ret (PyDict [("success", PyBool false);
                    ("is_agricultural", PyBool false);
                    ("message", PyStr "Validation failed, please try again.")])).

(** [except HTTPException as he: raise he], then
    [except Exception: raise HTTPException(500, detail)]. *)
Definition endpoint_errors (detail : string) (body : M value) : M value :=
  try_catch body
    (fun e =>
       match e with
       | HTTPException _ _ => raise e
       | _ => raise (HTTPException 500 detail)
       end).

(** [if not data or key not in data: raise HTTPException(422, detail)]. *)
Definition require_root (data : value) (key detail : string) : M unit :=
  if negb (truthy data) then raise (HTTPException 422 detail)
  else
    present <- lift (py_in key data) ;;
    if negb present then raise (HTTPException 422 detail) else ret tt.

(** [it[key] = translate_text(it.get(key, default), language)]. *)
Definition translate_field (language key : string) (it : value) : M value :=
  old <- lift (py_get it key (PyStr EmptyString)) ;;
  new <- translate_text old language ;;
  lift (py_setitem it key new).

(** [it[key] = translate_list(it.get(key, []), language)]. *)
Definition translate_list_field (language key : string) (it : value) : M value :=
  old <- lift (py_get it key (PyList [])) ;;
  new <- translate_list old language ;;
  lift (py_setitem it key new).

(** [for it in o: body].  The body updates [it] in place, so a list holds
    the updated items afterwards; the items of any other iterable are
    strings, which the bodies of this program cannot update. *)
Definition for_each (o : value) (body : value -> M value) : M value :=
  items <- lift (py_iter o) ;;
  items' <- mapM body items ;;
  ret (match o with PyList _ => PyList items' | _ => o end).

(** [for c in (o.get(key) or []): body]: the object under [key] is the one
    whose items are updated. *)
Definition for_each_at (o : value) (key : string) (body : value -> M value) : M value :=
  target <- lift (py_get o key PyNone) ;;
  if truthy target
  then target' <- for_each target body ;; lift (py_setitem o key target')
  else ret o.

Definition translate_issue (language : string) (it : value) : M value :=
  it1 <- translate_field language "name" it ;;
  it2 <- translate_field language "type" it1 ;;
  it3 <- translate_field language "severity" it2 ;;
  translate_list_field language "evidence" it3.

Definition translate_chemical (language : string) (c : value) : M value :=
  c1 <- translate_field language "product" c ;;
  c2 <- translate_field language "dose" c1 ;;
  translate_field language "notes" c2.

Definition translate_organic (language : string) (o : value) : M value :=
  o1 <- translate_field language "method" o ;;
  o2 <- translate_field language "dose" o1 ;;
  translate_field language "notes" o2.

(** [(o.get("chemical") or [{}])[0].get("product", default)]. *)
Definition first_product (o : value) (default : value) : result value :=
  rbind (py_get o "chemical" PyNone) (fun chemical =>
  rbind (py_first (py_or chemical (PyList [PyDict []]))) (fun first =>
  py_get first "product" default)).

Definition plant_summary (common sci score first_issue first_chem : value) : string :=
  "Identified: " ++ py_str common
    ++ (if truthy sci then " (" ++ py_str sci ++ ")" else EmptyString)
    ++ ". Health score: " ++ py_str score ++ "/100."
    ++ (if truthy first_issue
        then " Primary issue: " ++ py_str first_issue ++ "." else EmptyString)
    ++ (if truthy first_chem
        then " Recommended treatment: " ++ py_str first_chem ++ "." else EmptyString).

Definition analyze_plant (file : UploadFile) (language : string) : M value :=
  endpoint_errors "Failed to analyze plant image."
    (image <- load_image file ;;
     data <- ask_gemini_json PLANT_PROMPT image ;;
     _ <- require_root data "plant"
            "AI could not extract plant details. Try a clearer image." ;;
     plant <- lift (py_get data "plant" (PyDict [])) ;;
     health <- lift (py_get data "health" (PyDict [])) ;;
     issues <- lift (py_get data "issues" (PyList [])) ;;
     treatment <- lift (py_get data "treatment" (PyDict [])) ;;
     prevention <- lift (py_get data "prevention" (PyList [])) ;;
     common_name <- lift (py_get plant "common_name" PyNone) ;;
     let common := py_or common_name (PyStr "Unknown plant") in
     scientific_name <- lift (py_get plant "scientific_name" PyNone) ;;
     let sci := py_or scientific_name (PyStr EmptyString) in
     score <- lift (py_get health "score" (PyInt 0)) ;;
     issue_name <-
       lift (if truthy issues
             then rbind (py_first issues) (fun it => py_get it "name" PyNone)
             else Ok (PyStr EmptyString)) ;;
     let first_issue := py_or issue_name (PyStr EmptyString) in
     product <- lift (first_product treatment PyNone) ;;
     let first_chem := py_or product (PyStr EmptyString) in
     let summary_en := plant_summary common sci score first_issue first_chem in
     buy_url <- lift (get_medicine_link (py_or (py_or first_chem first_issue) common)) ;;
     summary <- translate_text (PyStr summary_en) language ;;
     issues' <- for_each issues (translate_issue language) ;;
     treatment1 <- for_each_at treatment "chemical" (translate_chemical language) ;;
     treatment2 <- for_each_at treatment1 "organic" (translate_organic language) ;;
     prevention' <- translate_list prevention language ;;
     ret (PyDict [("success", PyBool true);
                  ("plant", plant);
                  ("health", health);
                  ("issues", issues');
                  ("treatment", treatment2);
                  ("prevention", prevention');
                  ("summary", summary);
                  ("medicine_links", PyDict [("url", PyStr buy_url)])])).

Definition soil_summary (soil_type ph om : value) (crops : string) : string :=
  py_str soil_type ++ " detected. pH: " ++ py_str (py_or ph (PyStr "N/A"))
    ++ ", Organic matter: " ++ py_str (py_or om (PyStr "N/A"))
    ++ ". Recommended crops: " ++ crops ++ ".".

Definition analyze_soil (file : UploadFile) (language : string) : M value :=
  endpoint_errors "Failed to analyze soil image."
    (image <- load_image file ;;
     data <- ask_gemini_json SOIL_PROMPT image ;;
     _ <- require_root data "soil"
            "AI could not extract soil details. Try a clearer image." ;;
     soil <- lift (py_get data "soil" (PyDict [])) ;;
     health <- lift (py_get data "health" (PyDict [])) ;;
     nutrients <- lift (py_get data "nutrients" (PyDict [])) ;;
     suitable_crops <- lift (py_get data "suitable_crops" (PyList [])) ;;
     recommendations <- lift (py_get data "recommendations" (PyList [])) ;;
     fertilizer_plan <- lift (py_get data "fertilizer_plan" (PyList [])) ;;
     soil_type <- lift (py_get soil "type" (PyStr "Soil")) ;;
     ph <- lift (py_get health "ph_estimate" (PyStr EmptyString)) ;;
     om <- lift (py_get health "organic_matter" (PyStr EmptyString)) ;;
     crops <-
       lift (if truthy suitable_crops
             then rbind (py_slice3 suitable_crops) (py_join ", ")
             else Ok "N/A") ;;
     let summary_en := soil_summary soil_type ph om crops in
     summary <- translate_text (PyStr summary_en) language ;;
     suitable_crops' <- translate_list suitable_crops language ;;
     recommendations' <- translate_list recommendations language ;;
     fertilizer_plan' <- for_each fertilizer_plan (translate_chemical language) ;;
     product <-
       lift (if truthy fertilizer_plan'
             then rbind (py_first fertilizer_plan') (fun f => py_item f "product")
             else Ok (PyStr EmptyString)) ;;
     let first_fert := py_or product (PyStr "fertilizer") in
     buy_url <- lift (get_medicine_link first_fert) ;;
     ret (PyDict [("success", PyBool true);
                  ("soil", soil);
                  ("health", health);
                  ("nutrients", nutrients);
                  ("suitable_crops", suitable_crops');
                  ("recommendations", recommendations');
                  ("fertilizer_plan", fertilizer_plan');
                  ("summary", summary);
                  ("medicine_links", PyDict [("url", PyStr buy_url)])])).

Definition pest_summary (cname sev chem_first : value) : string :=
  py_str cname ++ " detected. Damage severity: " ++ py_str sev
    ++ "%. Recommended treatment: "
    ++ py_str (py_or chem_first (PyStr "See control measures")) ++ ".".

Definition analyze_pest (file : UploadFile) (language : string) : M value :=
  endpoint_errors "Failed to analyze pest image."
    (image <- load_image file ;;
     data <- ask_gemini_json PEST_PROMPT image ;;
     _ <- require_root data "pest"
            "AI could not extract pest details. Try a clearer image." ;;
     pest <- lift (py_get data "pest" (PyDict [])) ;;
     damage <- lift (py_get data "damage" (PyDict [])) ;;
     hosts <- lift (py_get data "hosts" (PyDict [])) ;;
     control <- lift (py_get data "control" (PyDict [])) ;;
     prevention <- lift (py_get data "prevention" (PyList [])) ;;
     cname <- lift (py_get pest "common_name" (PyStr "Pest")) ;;
     sev <- lift (py_get damage "severity" (PyInt 0)) ;;
     chem_first <- lift (first_product control (PyStr EmptyString)) ;;
     let summary_en := pest_summary cname sev chem_first in
     summary <- translate_text (PyStr summary_en) language ;;
     control1 <- for_each_at control "chemical" (translate_chemical language) ;;
     control2 <- for_each_at control1 "organic" (translate_organic language) ;;
     prevention' <- translate_list prevention language ;;
     buy_url <- lift (get_medicine_link (py_or chem_first cname)) ;;
     ret (PyDict [("success", PyBool true);
                  ("pest", pest);
                  ("damage", damage);
                  ("hosts", hosts);
                  ("control", control2);
                  ("prevention", prevention');
                  ("summary", summary);
                  ("medicine_links", PyDict [("url", PyStr buy_url)])])).

End Backend.

(* ================================================================== *)
(** ** Conversational support *)

(** The body of a chat request. *)
Record TextQueryRequest : Type := {
  query : string;
  language : string;
  context : option value
}.

Section Chat.

Variable gemini : list request -> request -> reply.

(** [datetime.now().isoformat()] when the response is built. *)
Variable timestamp_now : string.

Definition to_en_prompt (text : value) : string :=
  "Translate this to English. Return only the translated text:"
    ++ Py.nl ++ Py.nl ++ py_str text.

Definition translate_to_en (text : value) (source_lang : string) : M value :=
  if negb (truthy text) || String.eqb source_lang "en" then ret text
  else
    try_catch
      (resp <- generate_content gemini (Prompt (to_en_prompt text)) ;;
       ret (PyStr (Py.strip (text_or_empty resp))))
      (fun _ => ret text).

Definition advisor_prompt (query_en : value) : string :=
  Py.nl ++ "You are an Indian Agricultural Advisor." ++ Py.nl
    ++ "Farmer asked: " ++ py_str query_en ++ Py.nl
    ++ "Provide clear, practical guidance under 180 words. Use short bullets where useful."
    ++ Py.nl ++ "Return just the answer text." ++ Py.nl.

Definition chat_support (req : TextQueryRequest) : M value :=
  try_catch
    (query_en <- translate_to_en (PyStr (query req)) (language req) ;;
     resp <- generate_content gemini (Prompt (advisor_prompt query_en)) ;;
     let answer_en := PyStr (Py.strip (text_or_empty resp)) in
     answer <- translate_text gemini answer_en (language req) ;;
     ret (PyDict [("success", PyBool true);
                  ("response", PyDict [("answer", answer)]);
                  ("timestamp", PyStr timestamp_now)]))
    (fun _ => raise (HTTPException 500 "Chat processing failed.")).

End Chat.

(* ================================================================== *)
(** ** Vocabulary of the statements *)

(** [key] occurs in [t] up to letter case: some substring of [t] becomes
    [key] when lowered. *)
Definition occurs_nocase (key t : string) : Prop :=
  exists pre m post, t = pre ++ m ++ post /\ Py.lower m = key.

(** [c] occurs in [s]. *)
Fixpoint has_char (c : ascii) (s : string) : bool :=
  match s with
  | EmptyString => false
  | String c' r => Ascii.eqb c' c || has_char c r
  end.

(** [b] is the mapping [a] with at most the keys in [keys] rewritten. *)
Definition same_outside (keys : list string) (a b : value) : Prop :=
  exists d d',
    a = PyDict d /\ b = PyDict d'
    /\ forall k, ~ In k keys -> dict_get d' k = dict_get d k.

(** [after] is [before] once a loop has rewritten the keys [keys] of its
    items: a list of mappings item by item, anything else untouched. *)
Definition translated_items (keys : list string) (before after : value) : Prop :=
  match before with
  | PyList l => exists l', after = PyList l' /\ Forall2 (same_outside keys) l l'
  | _ => after = before
  end.

(** The same for the items found under [key] of a mapping. *)
Definition translated_under (key : string) (keys : list string) (before after : value) : Prop :=
  exists d d',
    before = PyDict d /\ after = PyDict d'
    /\ match dict_get d key with
       | Some t => exists t', dict_get d' key = Some t' /\ translated_items keys t t'
       | None => dict_get d' key = None
       end.

(** The entry [k] of a payload. *)
Definition field (payload : value) (k : string) : option value :=
  match payload with
  | PyDict d => dict_get d k
  | _ => None
  end.

(** [data] is what the extractor makes of the provider's reply to the
    analysis prompt for the uploaded image. *)
Definition analysis_data (gemini : list request -> request -> reply)
           (open_rgb : string -> option PILImage)
           (prompt : string) (file : UploadFile) (issued : list request)
           (data : value) : Prop :=
  exists bytes image r,
    read file = Ok bytes /\ open_rgb bytes = Some image
    /\ gemini issued (PromptImage prompt image) = Replied r
    /\ data = safe_json_parse (text_or_empty r).

(** An upload that reads and decodes, used in the examples. *)
Definition sample_upload : UploadFile := {| read := Ok "image-bytes" |}.

(** The model reply of the end-to-end plant scenario. *)
Definition tomato_reply : string :=
  Py.dq "{`plant`:{`common_name`:`Tomato`},`health`:{`score`:80},`issues`:[{`name`:`Blight`}],`treatment`:{`chemical`:[{`product`:`Mancozeb`}]}}".

(** A model reply with one issue, and its analysis with a provider that
    translates everything to the same word. *)
Definition issue_reply : string :=
  Py.dq "{`plant`:{`common_name`:`Tomato`},`health`:{`score`:80},`issues`:[{`name`:`Blight`,`type`:`disease`,`severity`:`mild`}]}".

Definition issue_payload : value :=
  match fst (analyze_plant (answering issue_reply "rog") Some sample_upload "hi" []) with
  | Ok payload => payload
  | Raise _ => PyNone
  end.

Definition issue_requests : list request :=
  snd (analyze_plant (answering issue_reply "rog") Some sample_upload "hi" []).

(** The payload of the validation endpoint when anything raised. *)
Definition validation_failed : value :=
  PyDict [("success", PyBool false);
          ("is_agricultural", PyBool false);
          ("message", PyStr "Validation failed, please try again.")].

Definition mancozeb_url : string :=
  "https://www.bighaat.com/products/indofil-m-45-mancozeb-75-wp-500-gm".

(** Every URL the lookup can return. *)
Definition known_urls : list string := fallback_url :: map snd mapping.

(** An exception other than [HTTPException]. *)
Definition plain (e : exn) : Prop :=
  match e with
  | HTTPException _ _ => False
  | _ => True
  end.

(** An exception of the body of an analysis endpoint: the rejection with
    status 422, or a plain exception. *)
Definition rejection_or_plain (detail : string) (e : exn) : Prop :=
  e = HTTPException 422 detail \/ plain e.

(** Every exception [m] can raise satisfies [P]. *)
Definition raises_only {A} (P : exn -> Prop) (m : M A) : Prop :=
  forall st e st', m st = (Raise e, st') -> P e.

(** The same for a computation without effects. *)
Definition fails_only {A} (P : exn -> Prop) (r : result A) : Prop :=
  forall e, r = Raise e -> P e.

(** [m] issues no provider call. *)
Definition silent {A} (m : M A) : Prop :=
  forall st, snd (m st) = st.

(** [m1] and [m2] give the same outcome, whatever was issued before. *)
Definition same_outcome {A} (m1 m2 : M A) : Prop :=
  forall st1 st2, fst (m1 st1) = fst (m2 st2).

(** The provider fails on every text prompt: every translation fails. *)
Definition translator_down (gemini : list request -> request -> reply) : Prop :=
  forall issued prompt, gemini issued (Prompt prompt) = Failed.

(** The requests [translate_list] issues for the items [l]. *)
Definition translation_requests (lang : string) (l : list value) : list request :=
  if String.eqb lang "en" then []
  else map (fun x => Prompt (translate_prompt x lang)) (filter truthy l).

(** The requests an endpoint issues when nothing after the analysis call
    issues one: none when the image does not load, the analysis call
    otherwise. *)
Definition analysis_call (open_rgb : string -> option PILImage)
           (prompt : string) (file : UploadFile) (issued : list request)
  : list request :=
  match fst (load_image open_rgb file issued) with
  | Ok image => (issued ++ [PromptImage prompt image])%list
  | Raise _ => issued
  end.

(** A provider that answers image prompts and fails on text prompts. *)
Definition image_only (analysis : string) : list request -> request -> reply :=
  fun _ req =>
    match req with
    | PromptImage _ _ => Replied (Some analysis)
    | Prompt _ => Failed
    end.

(** A chat request in Hindi and one in English. *)
Definition hindi_question : TextQueryRequest :=
  {| query := "gehun mein rog"; language := "hi"; context := None |}.

Definition english_question : TextQueryRequest :=
  {| query := "wheat rust"; language := "en"; context := None |}.

(* ================================================================== *)
(** * Properties *)

(** ** Strings *)

Lemma append_nil_r (s : string) : s ++ EmptyString = s.
Proof. induction s as [|c s IH]; simpl; [reflexivity | now rewrite IH]. Qed.

Lemma append_assoc (a b c : string) : (a ++ b) ++ c = a ++ b ++ c.
Proof. induction a as [|x a IH]; simpl; [reflexivity | now rewrite IH]. Qed.

Lemma startswith_iff (p s : string) :
  Py.startswith p s = true <-> exists r, s = p ++ r.
Proof.
  revert s; induction p as [|a p IH]; intros s; simpl.
  - split; [intros _; now exists s | reflexivity].
  - destruct s as [|b s].
    + split; [discriminate | intros [r Hr]; discriminate].
    + destruct (Ascii.eqb a b) eqn:Eab; simpl.
      * apply Ascii.eqb_eq in Eab as ->.
        rewrite IH. split; intros [r Hr]; exists r.
        -- now rewrite Hr.
        -- now injection Hr.
      * apply Ascii.eqb_neq in Eab.
        split; [discriminate | intros [r Hr]; injection Hr; intros _ E; congruence].
Qed.

Lemma contains_spec (k t : string) :
  Py.contains k t = true <-> exists pre post, t = pre ++ k ++ post.
Proof.
  induction t as [|c t IH]; simpl.
  - destruct (Py.startswith k EmptyString) eqn:P.
    + apply startswith_iff in P as [r Hr]. split; [|reflexivity].
      intros _. exists EmptyString, r. exact Hr.
    + split; [discriminate|]. intros (pre & post & E).
      destruct pre; [|discriminate]. simpl in E.
      assert (Py.startswith k EmptyString = true) by (apply startswith_iff; now exists post).
      congruence.
  - destruct (Py.startswith k (String c t)) eqn:P.
    + apply startswith_iff in P as [r Hr]. split; [|reflexivity].
      intros _. exists EmptyString, r. exact Hr.
    + rewrite IH. split.
      * intros (pre & post & E). exists (String c pre), post. simpl. now rewrite E.
      * intros (pre & post & E). destruct pre as [|c' pre].
        -- simpl in E.
           assert (Py.startswith k (String c t) = true) by (apply startswith_iff; now exists post).
           congruence.
        -- simpl in E. injection E as _ E. now exists pre, post.
Qed.

Lemma lower_app (a b : string) : Py.lower (a ++ b) = Py.lower a ++ Py.lower b.
Proof. induction a as [|c a IH]; simpl; [reflexivity | now rewrite IH]. Qed.

Lemma lower_app_inv (a b t : string) :
  Py.lower t = a ++ b ->
  exists a' b', t = a' ++ b' /\ Py.lower a' = a /\ Py.lower b' = b.
Proof.
  revert t; induction a as [|c a IH]; intros t E; simpl in E.
  - exists EmptyString, t. auto.
  - destruct t as [|c' t]; [discriminate|]. simpl in E. injection E as Ec Et.
    destruct (IH _ Et) as (a' & b' & -> & Ha & Hb).
    exists (String c' a'), b'. simpl. now rewrite Ec, Ha, Hb.
Qed.

(** The membership test on the lowered text is the case-blind occurrence. *)
Lemma contains_lower_iff (key t : string) :
  Py.contains key (Py.lower t) = true <-> occurs_nocase key t.
Proof.
  rewrite contains_spec. split.
  - intros (pre & post & E).
    apply lower_app_inv in E as (pre' & rest & -> & Hpre & E).
    apply lower_app_inv in E as (m & post' & -> & Hm & Hpost).
    now exists pre', m, post'.
  - intros (pre & m & post & -> & Hm).
    exists (Py.lower pre), (Py.lower post). now rewrite !lower_app, Hm.
Qed.

(** ** Medicine-link lookup *)

Lemma lookup_link_first (table : list (string * string)) (t : string) :
  forall i key url,
    nth_error table i = Some (key, url) ->
    Py.contains key t = true ->
    (forall j key' url', j < i -> nth_error table j = Some (key', url') ->
                         Py.contains key' t = false) ->
    lookup_link table t = url.
Proof.
  induction table as [|[k u] table IH]; intros i key url Hi Hk Hbefore.
  - destruct i; discriminate.
  - destruct i as [|i]; simpl in *.
    + injection Hi as -> ->. now rewrite Hk.
    + rewrite (Hbefore 0 k u); [|lia|reflexivity].
      apply (IH i key url Hi Hk). intros j k' u' Hj Hn.
      apply (Hbefore (S j) k' u'); [lia | exact Hn].
Qed.

Lemma lookup_link_none (table : list (string * string)) (t : string) :
  (forall key url, In (key, url) table -> Py.contains key t = false) ->
  lookup_link table t = fallback_url.
Proof.
  induction table as [|[k u] table IH]; intros H; simpl; [reflexivity|].
  rewrite (H k u) by now left.
  apply IH. intros key url Hin. apply (H key url). now right.
Qed.

(** C4. The link of a string is the URL of the first table entry whose
    keyword occurs in it up to letter case; when no keyword occurs it is the
    generic fallback URL.  "Apply Mancozeb 75 WP" gets the Mancozeb URL and
    "unknown substance" the fallback. *)
Theorem get_medicine_link_first_match (t : string) :
  (forall i key url,
      nth_error mapping i = Some (key, url) ->
      occurs_nocase key t ->
      (forall j key' url', j < i -> nth_error mapping j = Some (key', url') ->
                           ~ occurs_nocase key' t) ->
      get_medicine_link (PyStr t) = Ok url)
  /\ ((forall key url, In (key, url) mapping -> ~ occurs_nocase key t) ->
      get_medicine_link (PyStr t) = Ok fallback_url)
  /\ get_medicine_link (PyStr "Apply Mancozeb 75 WP") = Ok mancozeb_url
  /\ get_medicine_link (PyStr "unknown substance") = Ok fallback_url.
Proof.
  assert (E : get_medicine_link (PyStr t) = Ok (lookup_link mapping (Py.lower t))).
  { unfold get_medicine_link, py_or. simpl truthy.
    destruct (negb (String.eqb t EmptyString)) eqn:Ht; [reflexivity|].
    apply negb_false_iff, String.eqb_eq in Ht. now subst t. }
  repeat split.
  - intros i key url Hi Hocc Hbefore. rewrite E. f_equal.
    apply (lookup_link_first mapping (Py.lower t) i key url Hi).
    + now apply contains_lower_iff.
    + intros j key' url' Hj Hn.
      destruct (Py.contains key' (Py.lower t)) eqn:C; [|reflexivity].
      exfalso. apply (Hbefore j key' url' Hj Hn). now apply contains_lower_iff.
  - intros Hnone. rewrite E. f_equal. apply lookup_link_none.
    intros key url Hin.
    destruct (Py.contains key (Py.lower t)) eqn:C; [|reflexivity].
    exfalso. apply (Hnone key url Hin). now apply contains_lower_iff.
Qed.

Lemma get_medicine_link_first_match_witness :
  get_medicine_link (PyStr "Use NEEM oil with Urea") =
  Ok "https://www.bighaat.com/products/neem-oil-azadirachtin-300-ppm".
Proof.
  apply (proj1 (get_medicine_link_first_match "Use NEEM oil with Urea") 9 "neem").
  - reflexivity.
  - exists "Use ", "NEEM", " oil with Urea". split; reflexivity.
  - intros j key' url' Hj Hn Hocc. apply contains_lower_iff in Hocc.
    do 9 (destruct j as [|j]; [injection Hn as <- _; discriminate Hocc|]). lia.
Defined.

(** ** The brace span *)

Lemma upto_last_close_none (s : string) :
  has_char "}" s = false -> upto_last_close s = None.
Proof.
  induction s as [|c s IH]; simpl; [reflexivity|].
  intros H. apply orb_false_iff in H as [Hc Hs].
  now rewrite (IH Hs), Hc.
Qed.

Lemma upto_last_close_app (a post : string) :
  has_char "}" post = false ->
  upto_last_close (a ++ "}" ++ post) = Some (a ++ "}").
Proof.
  intros Hpost. induction a as [|c a IH]; simpl in *.
  - now rewrite (upto_last_close_none _ Hpost).
  - now rewrite IH.
Qed.

Lemma upto_last_close_Some (s p : string) :
  upto_last_close s = Some p ->
  exists body post,
    p = body ++ "}" /\ s = p ++ post /\ has_char "}" post = false.
Proof.
  revert p; induction s as [|c s IH]; intros p H; simpl in H; [discriminate|].
  destruct (upto_last_close s) as [q|] eqn:E.
  - injection H as <-. destruct (IH q eq_refl) as (body & post & -> & -> & Hp).
    exists (String c body), post. repeat split; assumption.
  - destruct (Ascii.eqb c "}") eqn:Ec; [|discriminate].
    injection H as <-. apply Ascii.eqb_eq in Ec as ->.
    exists EmptyString, s. repeat split.
    clear IH. induction s as [|d s IHs]; [reflexivity|].
    simpl in E. destruct (upto_last_close s); [discriminate|].
    destruct (Ascii.eqb d "}") eqn:Ed; [discriminate|].
    simpl. rewrite Ed. now apply IHs.
Qed.

Lemma upto_last_close_found (a b : string) :
  upto_last_close (a ++ "}" ++ b) <> None.
Proof.
  induction a as [|c a IH]; simpl in *.
  - destruct (upto_last_close b); discriminate.
  - destruct (upto_last_close (a ++ String "}" b)); [discriminate | contradiction].
Qed.

(** The match runs from the first opening brace to the last closing one. *)
Lemma re_search_span (pre body post : string) :
  has_char "{" pre = false ->
  has_char "}" post = false ->
  re_search (pre ++ "{" ++ body ++ "}" ++ post) = Some ("{" ++ body ++ "}").
Proof.
  intros Hpre Hpost. induction pre as [|c pre IH]; simpl.
  - pose proof (upto_last_close_app body post Hpost) as E. simpl in E.
    now rewrite E.
  - simpl in Hpre. apply orb_false_iff in Hpre as [Hc Hpre].
    rewrite Hc. now apply IH.
Qed.

Lemma re_search_Some (text m : string) :
  re_search text = Some m ->
  exists pre body post,
    text = pre ++ m ++ post /\ m = "{" ++ body ++ "}"
    /\ has_char "{" pre = false /\ has_char "}" post = false.
Proof.
  induction text as [|c text IH]; simpl; [discriminate|].
  destruct (Ascii.eqb c "{") eqn:Ec.
  - destruct (upto_last_close text) as [p|] eqn:E.
    + intros H. injection H as <-. apply Ascii.eqb_eq in Ec as ->.
      destruct (upto_last_close_Some _ _ E) as (body & post & -> & -> & Hp).
      exists EmptyString, body, post. repeat split; assumption.
    + intros H. destruct (IH H) as (pre & body & post & -> & -> & Hpre & Hpost).
      apply Ascii.eqb_eq in Ec as ->.
      exfalso. apply (upto_last_close_found (pre ++ "{" ++ body) post).
      rewrite <- E. f_equal. now rewrite !append_assoc.
  - intros H. destruct (IH H) as (pre & body & post & -> & -> & Hpre & Hpost).
    exists (String c pre), body, post. repeat split; try assumption.
    simpl. now rewrite Ec.
Qed.

Lemma re_search_None (text : string) :
  re_search text = None ->
  forall pre body post, text <> pre ++ "{" ++ body ++ "}" ++ post.
Proof.
  intros H pre body post ->. revert H.
  induction pre as [|c pre IH]; simpl.
  - destruct (upto_last_close (body ++ String "}" post)) eqn:E; [discriminate|].
    intros _. exact (upto_last_close_found body post E).
  - destruct (Ascii.eqb c "{"); [|exact IH].
    destruct (upto_last_close _); [discriminate | exact IH].
Qed.

(** ** The fuel of the decoder *)

Lemma skip_ws_length (s : string) :
  String.length (Json.skip_ws s) <= String.length s.
Proof.
  induction s as [|c s IH]; simpl; [lia|].
  destruct (Json.is_ws c); simpl; lia.
Qed.

Lemma span_digits_length (s : string) :
  String.length (snd (Json.span_digits s)) <= String.length s.
Proof.
  induction s as [|c s IH]; simpl; [lia|].
  destruct (Json.is_digit c); simpl; [|lia].
  destruct (Json.span_digits s); simpl in *; lia.
Qed.

Lemma scanstring_length (s : string) :
  forall body rest,
    Json.scanstring s = Some (body, rest) -> String.length rest < String.length s.
Proof.
  assert (Hcons : forall c (o : option (string * string)) body rest n,
             (forall b r, o = Some (b, r) -> String.length r < n) ->
             Json.cons_char c o = Some (body, rest) -> String.length rest < n).
  { intros c [[b r]|] body rest n Ho H; simpl in H; [|discriminate].
    injection H as _ <-. now apply (Ho b r). }
  remember (String.length s) as n eqn:Hn.
  revert s Hn. induction n as [n IH] using lt_wf_ind. intros s Hn body rest H.
  destruct s as [|c s]; [discriminate|]. simpl in H, Hn.
  destruct (Ascii.eqb c Py.dquote).
  { injection H as _ <-. lia. }
  destruct (Ascii.eqb c "092").
  - destruct s as [|e r1]; [discriminate|]. simpl in Hn.
    destruct (Ascii.eqb e "u").
    + destruct r1 as [|h1 [|h2 [|h3 [|h4 r2]]]]; try discriminate.
      simpl in Hn.
      destruct (Json.hex_value h1), (Json.hex_value h2),
        (Json.hex_value h3), (Json.hex_value h4); try discriminate.
      match type of H with (if ?b then _ else _) = _ => destruct b end; [|discriminate].
      apply (Hcons _ _ _ _ n) in H; [exact H|].
      intros b r Hbr.
      assert (String.length r < String.length r2)
        by (apply (IH (String.length r2)) with (s := r2) (body := b); [lia|reflexivity|exact Hbr]).
      lia.
    + destruct (Json.unescape e); [|discriminate].
      apply (Hcons _ _ _ _ n) in H; [exact H|].
      intros b r Hbr.
      assert (String.length r < String.length r1)
        by (apply (IH (String.length r1)) with (s := r1) (body := b); [lia|reflexivity|exact Hbr]).
      lia.
  - match type of H with (if ?b then _ else _) = _ => destruct b end; [discriminate|].
    apply (Hcons _ _ _ _ n) in H; [exact H|].
    intros b r Hbr.
    assert (String.length r < String.length s)
      by (apply (IH (String.length s)) with (s := s) (body := b); [lia|reflexivity|exact Hbr]).
    lia.
Qed.

Lemma number_sign_length (s : string) :
  String.length (snd (Json.number_sign s)) <= String.length s.
Proof. destruct s as [|c s]; simpl; [lia|]. destruct (Ascii.eqb c "-"); simpl; lia. Qed.

Lemma number_int_length (s ip rest : string) :
  Json.number_int s = Some (ip, rest) -> String.length rest < String.length s.
Proof.
  destruct s as [|c s]; unfold Json.number_int; [discriminate|].
  destruct (Ascii.eqb c "0").
  - intros H. injection H as _ <-. simpl. lia.
  - destruct (Py.in_range 49 57 c); [|discriminate].
    pose proof (span_digits_length s) as L.
    destruct (Json.span_digits s) as [ds r]. intros H. injection H as _ <-.
    simpl in *. lia.
Qed.

Lemma number_frac_length (s : string) :
  String.length (snd (Json.number_frac s)) <= String.length s.
Proof.
  destruct s as [|c [|d r]]; unfold Json.number_frac; try (simpl; lia).
  destruct (Ascii.eqb c "." && Json.is_digit d); [|simpl; lia].
  pose proof (span_digits_length (String d r)) as L.
  destruct (Json.span_digits (String d r)) as [ds rest]. simpl in *. lia.
Qed.

Lemma number_exp_length (s : string) :
  String.length (snd (Json.number_exp s)) <= String.length s.
Proof.
  destruct s as [|e r]; unfold Json.number_exp; [simpl; lia|].
  destruct (Ascii.eqb e "e" || Ascii.eqb e "E"); [|simpl; lia].
  destruct r as [|c r'].
  - simpl. lia.
  - destruct (Ascii.eqb c "-" || Ascii.eqb c "+").
    + pose proof (span_digits_length r') as L.
      destruct (Json.span_digits r') as [ds rest]. destruct ds; simpl in *; lia.
    + pose proof (span_digits_length (String c r')) as L.
      destruct (Json.span_digits (String c r')) as [ds rest]. destruct ds; simpl in *; lia.
Qed.

Lemma match_number_length (s : string) (v : value) (rest : string) :
  Json.match_number s = Some (v, rest) -> String.length rest < String.length s.
Proof.
  unfold Json.match_number.
  pose proof (number_sign_length s) as L1.
  destruct (Json.number_sign s) as [sign s1].
  destruct (Json.number_int s1) as [[ip s2]|] eqn:Hint; [|discriminate].
  apply number_int_length in Hint.
  pose proof (number_frac_length s2) as L3.
  destruct (Json.number_frac s2) as [frac s3].
  pose proof (number_exp_length s3) as L4.
  destruct (Json.number_exp s3) as [expo s4].
  simpl in *.
  destruct frac, expo; intros H; injection H as _ <-; lia.
Qed.

Lemma drop_startswith_length (p s : string) :
  Py.startswith p s = true ->
  String.length (Py.drop (String.length p) s) + String.length p = String.length s.
Proof.
  revert s; induction p as [|a p IH]; intros s; simpl; [lia|].
  destruct s as [|b s]; [discriminate|].
  intros H. apply andb_true_iff in H as [_ H]. specialize (IH s H). simpl. lia.
Qed.

(** Case analysis on the condition the hypothesis [H] branches on. *)
Ltac case_if H :=
  match type of H with
  | (if ?b then _ else _) = _ => let E := fresh "E" in destruct b eqn:E
  end.

(** Every value the scanner reads takes at least one character. *)
Lemma scan_length (f : nat) :
  (forall s v r, Json.scan_once f s = Some (v, r) -> String.length r < String.length s)
  /\ (forall s acc v r,
         Json.parse_pairs f s acc = Some (v, r) -> String.length r < String.length s)
  /\ (forall s acc v r,
         Json.parse_items f s acc = Some (v, r) -> String.length r < String.length s).
Proof.
  induction f as [|f (IHs & IHp & IHi)]; [repeat split; intros; discriminate|].
  repeat split.
  - intros s v r H. cbn [Json.scan_once] in H.
    destruct s as [|c s0]; [discriminate|].
    case_if H.
    { destruct (Json.scanstring s0) as [[b rest]|] eqn:Es; [|discriminate].
      injection H as _ <-. apply scanstring_length in Es. simpl. lia. }
    case_if H.
    { pose proof (skip_ws_length s0) as L.
      destruct (Json.skip_ws s0) as [|c1 r1]; [discriminate|].
      case_if H.
      - injection H as _ <-. simpl in *. lia.
      - apply IHp in H. simpl in *. lia. }
    case_if H.
    { pose proof (skip_ws_length s0) as L.
      destruct (Json.skip_ws s0) as [|c1 r1]; [discriminate|].
      case_if H.
      - injection H as _ <-. simpl in *. lia.
      - apply IHi in H. simpl in *. lia. }
    repeat (case_if H;
            [ injection H as _ <-;
              match goal with
              | E : Py.startswith _ _ = true |- _ =>
                  apply drop_startswith_length in E; simpl String.length in *; lia
              end | ]).
    exact (match_number_length _ _ _ H).
  - intros s acc v r H. cbn [Json.parse_pairs] in H.
    destruct s as [|c s0]; [discriminate|].
    case_if H; [|discriminate].
    destruct (Json.scanstring s0) as [[key r1]|] eqn:Es; [|discriminate].
    apply scanstring_length in Es.
    pose proof (skip_ws_length r1) as L1.
    destruct (Json.skip_ws r1) as [|c2 r2]; [discriminate|].
    case_if H; [|discriminate].
    destruct (Json.scan_once f (Json.skip_ws r2)) as [[v3 r3]|] eqn:Ev; [|discriminate].
    apply IHs in Ev. pose proof (skip_ws_length r2) as L2.
    pose proof (skip_ws_length r3) as L3.
    destruct (Json.skip_ws r3) as [|c4 r4]; [discriminate|].
    case_if H.
    + injection H as _ <-. simpl in *. lia.
    + case_if H; [|discriminate].
      apply IHp in H. pose proof (skip_ws_length r4). simpl in *. lia.
  - intros s acc v r H. cbn [Json.parse_items] in H.
    destruct (Json.scan_once f s) as [[v1 r1]|] eqn:Ev; [|discriminate].
    apply IHs in Ev. pose proof (skip_ws_length r1) as L1.
    destruct (Json.skip_ws r1) as [|c2 r2]; [discriminate|].
    case_if H.
    + injection H as _ <-. simpl in *. lia.
    + case_if H; [|discriminate].
      apply IHi in H. pose proof (skip_ws_length r2). simpl in *. lia.
Qed.

(** Past twice the length of the text, one more unit of fuel changes
    nothing. *)
Lemma scan_stable (f : nat) :
  (forall s, 2 * String.length s + 1 <= f ->
             Json.scan_once (S f) s = Json.scan_once f s)
  /\ (forall s acc, 2 * String.length s <= f ->
                    Json.parse_pairs (S f) s acc = Json.parse_pairs f s acc)
  /\ (forall s acc, 2 * String.length s + 2 <= f ->
                    Json.parse_items (S f) s acc = Json.parse_items f s acc).
Proof.
  induction f as [|f (IHs & IHp & IHi)].
  - repeat split; intros s; try (intros; lia).
    intros acc H. destruct s; [reflexivity | simpl in H; lia].
  - destruct (scan_length f) as (Ls & Lp & Li).
    repeat split.
    + intros s H. cbn [Json.scan_once].
      destruct s as [|c s0]; [reflexivity|]. simpl in H.
      pose proof (skip_ws_length s0) as L.
      destruct (Ascii.eqb c Py.dquote); [reflexivity|].
      destruct (Ascii.eqb c "{").
      { destruct (Json.skip_ws s0) as [|c1 r1] eqn:E; [reflexivity|].
        destruct (Ascii.eqb c1 "}"); [reflexivity|].
        apply IHp. lia. }
      destruct (Ascii.eqb c "[").
      { destruct (Json.skip_ws s0) as [|c1 r1] eqn:E; [reflexivity|].
        destruct (Ascii.eqb c1 "]"); [reflexivity|].
        apply IHi. lia. }
      reflexivity.
    + intros s acc H. cbn [Json.parse_pairs].
      destruct s as [|c s0]; [reflexivity|]. simpl in H.
      destruct (Ascii.eqb c Py.dquote); [|reflexivity].
      destruct (Json.scanstring s0) as [[key r1]|] eqn:Es; [|reflexivity].
      apply scanstring_length in Es.
      pose proof (skip_ws_length r1) as L1.
      destruct (Json.skip_ws r1) as [|c2 r2]; [reflexivity|].
      destruct (Ascii.eqb c2 ":"); [|reflexivity].
      pose proof (skip_ws_length r2) as L2. simpl in L1.
      rewrite IHs by lia.
      destruct (Json.scan_once f (Json.skip_ws r2)) as [[v3 r3]|] eqn:Ev; [|reflexivity].
      apply Ls in Ev. pose proof (skip_ws_length r3) as L3.
      destruct (Json.skip_ws r3) as [|c4 r4]; [reflexivity|].
      destruct (Ascii.eqb c4 "}"); [reflexivity|].
      destruct (Ascii.eqb c4 ","); [|reflexivity].
      pose proof (skip_ws_length r4) as L4. simpl in L3.
      apply IHp. lia.
    + intros s acc H. cbn [Json.parse_items].
      rewrite IHs by lia.
      destruct (Json.scan_once f s) as [[v1 r1]|] eqn:Ev; [|reflexivity].
      apply Ls in Ev. pose proof (skip_ws_length r1) as L1.
      destruct (Json.skip_ws r1) as [|c2 r2]; [reflexivity|].
      destruct (Ascii.eqb c2 "]"); [reflexivity|].
      destruct (Ascii.eqb c2 ","); [|reflexivity].
      pose proof (skip_ws_length r2) as L2. simpl in L1.
      apply IHi. lia.
Qed.

(** The fuel [loads] starts with is never the reason for a failure: any
    larger amount gives the same result. *)
Lemma scan_once_fuel (s : string) (f : nat) :
  2 * String.length s + 1 <= f ->
  Json.scan_once f s = Json.scan_once (2 * String.length s + 1) s.
Proof.
  intros H. induction f as [|f IH]; [lia|].
  destruct (Nat.eq_dec (S f) (2 * String.length s + 1)) as [->|Hne]; [reflexivity|].
  rewrite (proj1 (scan_stable f)) by lia. apply IH. lia.
Qed.

Lemma loads_fuel (s : string) (f : nat) :
  2 * String.length s + 2 <= f ->
  Json.scan_once f (Json.skip_ws s)
  = Json.scan_once (2 * String.length s + 2) (Json.skip_ws s).
Proof.
  intros H. pose proof (skip_ws_length s) as L.
  rewrite (scan_once_fuel (Json.skip_ws s) f) by lia.
  symmetry. apply scan_once_fuel. lia.
Qed.

(** ** The decoder on an object *)

Lemma parse_pairs_dict (fuel : nat) :
  forall s acc v r,
    Json.parse_pairs fuel s acc = Some (v, r) -> exists d, v = PyDict d.
Proof.
  induction fuel as [|f IH]; intros s acc v r H; simpl in H; [discriminate|].
  destruct s as [|c s]; [discriminate|].
  destruct (Ascii.eqb c Py.dquote); [|discriminate].
  destruct (Json.scanstring s) as [[key r1]|]; [|discriminate].
  destruct (Json.skip_ws r1) as [|c2 r2]; [discriminate|].
  destruct (Ascii.eqb c2 ":"); [|discriminate].
  destruct (Json.scan_once f (Json.skip_ws r2)) as [[v3 r3]|]; [|discriminate].
  destruct (Json.skip_ws r3) as [|c4 r4]; [discriminate|].
  destruct (Ascii.eqb c4 "}").
  - injection H as <- _. eauto.
  - destruct (Ascii.eqb c4 ","); [|discriminate]. eauto.
Qed.

Lemma loads_object (r : string) (v : value) :
  Json.loads (String "{" r) = Ok v -> exists d, v = PyDict d.
Proof.
  unfold Json.loads. cbn [Json.skip_ws Json.is_ws]. 
  change (Json.is_ws "{") with false. cbv iota.
  set (fuel := 2 * String.length (String "{" r) + 2).
  assert (Hf : exists f, fuel = S f) by (exists (2 * String.length (String "{" r) + 1); subst fuel; lia).
  destruct Hf as [f ->].
  destruct (Json.scan_once (S f) (String "{" r)) as [[v' rest]|] eqn:E; [|discriminate].
  destruct (Json.skip_ws rest); [|discriminate].
  intros H. injection H as <-.
  cbn [Json.scan_once] in E.
  change (Ascii.eqb "{" Py.dquote) with false in E.
  change (Ascii.eqb "{" "{") with true in E. cbv iota in E.
  destruct (Json.skip_ws r) as [|c1 r1]; [discriminate|].
  destruct (Ascii.eqb c1 "}").
  - injection E as <- _. eauto.
  - now apply parse_pairs_dict in E.
Qed.

Lemma re_search_no_open (text : string) :
  has_char "{" text = false -> re_search text = None.
Proof.
  induction text as [|c text IH]; simpl; [reflexivity|].
  intros H. apply orb_false_iff in H as [Hc Ht]. rewrite Hc. now apply IH.
Qed.

(** ** JSON extractor *)

(** C1, as amended.  When the text has an opening brace with a closing
    brace after it, the span from the first opening brace to the last
    closing brace is parsed and a failure of that parse gives the empty
    mapping; the whole text is parsed only when there is no such span, and a
    failure gives the empty mapping again.  The text with [{"a":1}] inside
    gives the mapping of ["a"] to 1, and a text without braces that is not
    JSON gives the empty mapping. *)
Theorem safe_json_parse_span_else_whole (text : string) :
  (forall pre body post,
      text = pre ++ "{" ++ body ++ "}" ++ post ->
      has_char "{" pre = false ->
      has_char "}" post = false ->
      safe_json_parse text
      = try_except (Json.loads ("{" ++ body ++ "}")) (PyDict []))
  /\ ((forall pre body post, text <> pre ++ "{" ++ body ++ "}" ++ post) ->
      safe_json_parse text = try_except (Json.loads text) (PyDict []))
  /\ (has_char "{" text = false ->
      forall e, Json.loads text = Raise e -> safe_json_parse text = PyDict [])
  /\ safe_json_parse (Py.dq "Here is data: {`a`:1} thanks") = PyDict [("a", PyInt 1)].
Proof.
  repeat split.
  - intros pre body post -> Hpre Hpost. unfold safe_json_parse.
    now rewrite (re_search_span pre body post Hpre Hpost).
  - intros Hnone. unfold safe_json_parse.
    destruct (re_search text) as [m|] eqn:E; [|reflexivity].
    destruct (re_search_Some _ _ E) as (pre & body & post & Ht & -> & _ & _).
    exfalso. apply (Hnone pre body post). rewrite Ht.
    now rewrite !append_assoc.
  - intros Hopen e He. unfold safe_json_parse.
    now rewrite (re_search_no_open _ Hopen), He.
Qed.

Lemma safe_json_parse_span_else_whole_witness :
  safe_json_parse "note {not json} end" = PyDict [].
Proof.
  exact (proj1 (safe_json_parse_span_else_whole "note {not json} end")
           "note " "not json" " end" eq_refl eq_refl eq_refl).
Defined.

(** C1, as stated, fails.  On a text holding two objects in an array the
    span between the outer braces does not parse and the program gives the
    empty mapping, where the specification's algorithm falls back to the
    whole text and gives the array; and a text without braces can be JSON
    that is not a mapping. *)
Lemma safe_json_parse_spec_differs :
  safe_json_parse (Py.dq "[{`a`:1},{`b`:2}]") = PyDict []
  /\ safe_json_parse_spec (Py.dq "[{`a`:1},{`b`:2}]")
     = PyList [PyDict [("a", PyInt 1)]; PyDict [("b", PyInt 2)]]
  /\ has_char "{" "42" || has_char "}" "42" = false
  /\ safe_json_parse "42" = PyInt 42.
Proof. repeat split; vm_compute; reflexivity. Qed.

(** C6, at the failing input.  The text [42] has no braces and is JSON, so
    the extractor returns the integer 42, which is not a mapping.  This is
    the only way out of the mappings: the result is a mapping unless the
    text has no brace span and the whole text parses, in which case the
    result is what it parses to. *)
Theorem safe_json_parse_bare_value :
  safe_json_parse "42" = PyInt 42
  /\ forall text,
      (exists d, safe_json_parse text = PyDict d)
      \/ (re_search text = None /\ Json.loads text = Ok (safe_json_parse text)).
Proof.
  split; [reflexivity|].
  intros text. unfold safe_json_parse.
  destruct (re_search text) as [m|] eqn:E.
  - left. destruct (re_search_Some _ _ E) as (pre & body & post & _ & -> & _ & _).
    destruct (Json.loads ("{" ++ body ++ "}")) as [v|e] eqn:L; simpl.
    + exact (loads_object _ _ L).
    + now exists [].
  - destruct (Json.loads text) as [v|e]; simpl.
    + right. split; reflexivity.
    + left. now exists [].
Qed.

(** ** The effect monad *)

Lemma bind_Ok {A B} (m : M A) (k : A -> M B) st b st' :
  bind m k st = (Ok b, st') ->
  exists a st1, m st = (Ok a, st1) /\ k a st1 = (Ok b, st').
Proof.
  unfold bind. destruct (m st) as [[a|e] st1]; [|discriminate].
  intros H. now exists a, st1.
Qed.

Lemma lift_Ok {A} (r : result A) st a st' :
  lift r st = (Ok a, st') -> r = Ok a /\ st' = st.
Proof. unfold lift. intros H. injection H as -> ->. now split. Qed.

Lemma ret_Ok {A} (x : A) st a st' :
  ret x st = (Ok a, st') -> a = x /\ st' = st.
Proof. unfold ret. intros H. injection H as -> ->. now split. Qed.

Lemma rbind_Ok {A B} (r : result A) (k : A -> result B) b :
  rbind r k = Ok b -> exists a, r = Ok a /\ k a = Ok b.
Proof. destruct r as [a|e]; simpl; [|discriminate]. intros H. now exists a. Qed.

Section Properties.

Variable gemini : list request -> request -> reply.
Variable open_rgb : string -> option PILImage.

(** ** Field translator *)

(** What one translation does, case by case. *)
Lemma translate_text_cases (text : value) (lang : string) (issued : list request) :
  translate_text gemini text lang issued =
  if negb (truthy text) || String.eqb lang "en" then (Ok text, issued)
  else
    let req := Prompt (translate_prompt text lang) in
    match gemini issued req with
    | Failed => (Ok text, (issued ++ [req])%list)
    | Replied r => (Ok (PyStr (Py.strip (text_or_empty r))), (issued ++ [req])%list)
    end.
Proof.
  unfold translate_text.
  destruct (negb (truthy text) || String.eqb lang "en"); [reflexivity|].
  unfold try_catch, bind, generate_content. simpl.
  destruct (gemini issued (Prompt (translate_prompt text lang))); reflexivity.
Qed.

Lemma translate_text_total (text : value) (lang : string) (issued : list request) :
  exists v issued', translate_text gemini text lang issued = (Ok v, issued').
Proof.
  rewrite translate_text_cases.
  destruct (negb (truthy text) || String.eqb lang "en"); [eauto|].
  simpl. destruct (gemini issued _); eauto.
Qed.

(** C7. With the target language [en], or with a falsy input, the
    translator returns its input and issues no provider call: the list of
    requests issued is the one it started from.  In particular "Hello"
    translated to [en] is "Hello". *)
Theorem translate_text_passthrough (text : value) (lang : string) (issued : list request) :
  lang = "en" \/ truthy text = false ->
  translate_text gemini text lang issued = (Ok text, issued)
  /\ translate_text gemini (PyStr "Hello") "en" issued = (Ok (PyStr "Hello"), issued).
Proof.
  intros H. split; [|reflexivity].
  rewrite translate_text_cases.
  destruct H as [-> | ->].
  - now rewrite orb_true_r.
  - reflexivity.
Qed.

(** C3, as amended.  For a non-[en] target and a truthy text: when the
    provider call raises, the translator returns the text it was given; when
    the provider replies, the translator returns the reply stripped, which
    is the empty string for a reply without text.  No exception leaves the
    translator in either case. *)
Theorem translate_text_on_failure (text : value) (lang : string) (issued : list request) :
  (gemini issued (Prompt (translate_prompt text lang)) = Failed ->
   fst (translate_text gemini text lang issued) = Ok text)
  /\ (forall r,
        lang <> "en" -> truthy text = true ->
        gemini issued (Prompt (translate_prompt text lang)) = Replied r ->
        fst (translate_text gemini text lang issued)
        = Ok (PyStr (Py.strip (text_or_empty r))))
  /\ (lang <> "en" -> truthy text = true ->
      gemini issued (Prompt (translate_prompt text lang)) = Replied None ->
      fst (translate_text gemini text lang issued) = Ok (PyStr EmptyString))
  /\ exists v, fst (translate_text gemini text lang issued) = Ok v.
Proof.
  assert (Hreply : forall r,
             lang <> "en" -> truthy text = true ->
             gemini issued (Prompt (translate_prompt text lang)) = Replied r ->
             fst (translate_text gemini text lang issued)
             = Ok (PyStr (Py.strip (text_or_empty r)))).
  { intros r Hlang Htruthy Hr. rewrite translate_text_cases, Htruthy.
    apply String.eqb_neq in Hlang. rewrite Hlang. simpl. now rewrite Hr. }
  repeat split.
  - intros Hfail. rewrite translate_text_cases.
    destruct (negb (truthy text) || String.eqb lang "en"); [reflexivity|].
    simpl. now rewrite Hfail.
  - exact Hreply.
  - intros Hlang Htruthy Hr. exact (Hreply None Hlang Htruthy Hr).
  - destruct (translate_text_total text lang issued) as (v & st & E).
    exists v. now rewrite E.
Qed.




(** ** Model gateway *)

Lemma load_image_cases (file : UploadFile) (issued : list request) :
  load_image open_rgb file issued =
  (match read file with
   | Ok bytes =>
       match open_rgb bytes with
       | Some image => Ok image
       | None => Raise IOError
       end
   | Raise e => Raise e
   end, issued).
Proof.
  unfold load_image, bind, lift.
  destruct (read file) as [bytes|e]; [|reflexivity].
  destruct (open_rgb bytes); reflexivity.
Qed.

Lemma generate_content_cases (req : request) (issued : list request) :
  generate_content gemini req issued =
  (match gemini issued req with
   | Failed => Raise IOError
   | Replied text => Ok text
   end, (issued ++ [req])%list).
Proof. unfold generate_content. destruct (gemini issued req); reflexivity. Qed.

(** ** Image validation gate *)

(** C8. When the upload reads and decodes and the provider replies, the
    image is classified as agricultural exactly when "yes" occurs, up to
    letter case, in the stripped reply.  When reading, decoding or the
    provider call raises, the payload is the failure payload with
    [success] and [is_agricultural] false.  The endpoint returns a payload
    in every case.  The reply "Yes, this is a crop." is classified true and
    "No." false. *)
Theorem validate_image_gate (file : UploadFile) (language : string) (issued : list request) :
  (forall bytes image r,
      read file = Ok bytes ->
      open_rgb bytes = Some image ->
      gemini issued (PromptImage VALIDATE_PROMPT image) = Replied r ->
      exists b message,
        fst (validate_image gemini open_rgb file language issued)
        = Ok (PyDict [("success", PyBool true);
                      ("is_agricultural", PyBool b);
                      ("message", message)])
        /\ (b = true <-> occurs_nocase "yes" (Py.strip (text_or_empty r))))
  /\ ((exists e, read file = Raise e)
      \/ (exists bytes, read file = Ok bytes /\ open_rgb bytes = None)
      \/ (exists bytes image,
             read file = Ok bytes /\ open_rgb bytes = Some image
             /\ gemini issued (PromptImage VALIDATE_PROMPT image) = Failed) ->
      fst (validate_image gemini open_rgb file language issued) = Ok validation_failed)
  /\ (exists payload,
        fst (validate_image gemini open_rgb file language issued) = Ok (PyDict payload))
  /\ fst (validate_image (answering "Yes, this is a crop." EmptyString) Some
            sample_upload "en" [])
     = Ok (PyDict [("success", PyBool true);
                   ("is_agricultural", PyBool true);
                   ("message", PyStr "Image validated successfully")])
  /\ fst (validate_image (answering "No." EmptyString) Some sample_upload "en" [])
     = Ok (PyDict [("success", PyBool true);
                   ("is_agricultural", PyBool false);
                   ("message", PyStr "Please upload an agriculture-related image")]).
Proof.
  assert (Hok : forall bytes image r,
             read file = Ok bytes ->
             open_rgb bytes = Some image ->
             gemini issued (PromptImage VALIDATE_PROMPT image) = Replied r ->
             exists b message,
               fst (validate_image gemini open_rgb file language issued)
               = Ok (PyDict [("success", PyBool true);
                             ("is_agricultural", PyBool b);
                             ("message", message)])
               /\ (b = true <-> occurs_nocase "yes" (Py.strip (text_or_empty r)))).
  { intros bytes image r Hread Hopen Hreply.
    unfold validate_image, try_catch, bind.
    rewrite load_image_cases, Hread, Hopen, generate_content_cases, Hreply.
    set (b := Py.contains "yes" (Py.lower (Py.strip (text_or_empty r)))).
    set (msg := PyStr (if b then _ else _)).
    destruct (translate_text_total msg language
                (issued ++ [PromptImage VALIDATE_PROMPT image])%list)
      as (m & st & Em).
    exists b, m. rewrite Em. split; [reflexivity|].
    subst b. apply contains_lower_iff. }
  assert (Hfail :
            (exists e, read file = Raise e)
            \/ (exists bytes, read file = Ok bytes /\ open_rgb bytes = None)
            \/ (exists bytes image,
                   read file = Ok bytes /\ open_rgb bytes = Some image
                   /\ gemini issued (PromptImage VALIDATE_PROMPT image) = Failed) ->
            fst (validate_image gemini open_rgb file language issued)
            = Ok validation_failed).
  { unfold validate_image, try_catch, bind. rewrite load_image_cases.
    intros [[e He] | [(bytes & Hread & Hopen) | (bytes & image & Hread & Hopen & Hreply)]].
    - now rewrite He.
    - now rewrite Hread, Hopen.
    - now rewrite Hread, Hopen, generate_content_cases, Hreply. }
  repeat split; try assumption; try reflexivity.
  destruct (read file) as [bytes|e] eqn:Hread.
  - destruct (open_rgb bytes) as [image|] eqn:Hopen.
    + destruct (gemini issued (PromptImage VALIDATE_PROMPT image)) as [|r] eqn:Hreply.
      * eexists. apply Hfail. right. right. now exists bytes, image.
      * destruct (Hok bytes image r eq_refl Hopen Hreply) as (b & m & E & _). eauto.
    + eexists. apply Hfail. right. left. now exists bytes.
  - eexists. apply Hfail. left. now exists e.
Qed.

(** ** End-to-end plant scenario *)

(** C9. When the upload reads and decodes, the model answers the plant
    prompt with the Tomato reply and the language is [en], the plant
    endpoint succeeds after that one provider call; its summary contains
    "Tomato", "80/100", "Blight" and "Mancozeb", and the URL under
    [medicine_links] is the Mancozeb product URL. *)
Theorem analyze_plant_tomato (file : UploadFile) (issued : list request)
        (bytes : string) (image : PILImage) :
  read file = Ok bytes ->
  open_rgb bytes = Some image ->
  gemini issued (PromptImage PLANT_PROMPT image) = Replied (Some tomato_reply) ->
  exists payload summary,
    analyze_plant gemini open_rgb file "en" issued
    = (Ok (PyDict payload), (issued ++ [PromptImage PLANT_PROMPT image])%list)
    /\ dict_get payload "success" = Some (PyBool true)
    /\ dict_get payload "summary" = Some (PyStr summary)
    /\ Py.contains "Tomato" summary = true
    /\ Py.contains "80/100" summary = true
    /\ Py.contains "Blight" summary = true
    /\ Py.contains "Mancozeb" summary = true
    /\ dict_get payload "medicine_links" = Some (PyDict [("url", PyStr mancozeb_url)]).
Proof.
  intros Hread Hopen Hreply.
  unfold analyze_plant, endpoint_errors, try_catch, bind at 1.
  rewrite load_image_cases, Hread, Hopen.
  unfold ask_gemini_json, bind at 1. unfold bind at 1.
  rewrite generate_content_cases, Hreply.
  vm_compute. eexists _, _. split; [reflexivity|].
  repeat split; reflexivity.
Qed.

(** ** Rejection of a reply without the root key *)

Lemma require_root_missing (d : dict) (key detail : string) (issued : list request) :
  dict_mem d key = false ->
  require_root (PyDict d) key detail issued = (Raise (HTTPException 422 detail), issued).
Proof.
  intros Hmem. unfold require_root.
  destruct d as [|kv d]; [reflexivity|].
  cbn [truthy negb]. unfold bind, lift. cbn [py_in]. now rewrite Hmem.
Qed.

(** A reply that parses to a mapping without the root key, the empty
    mapping included, is rejected with status 422 after the one analysis
    call, before any translation call. *)
Lemma analysis_rejects_missing_root
      (file : UploadFile) (language : string) (issued : list request)
      (bytes : string) (image : PILImage) (r : option string) (d : dict) :
  read file = Ok bytes ->
  open_rgb bytes = Some image ->
  safe_json_parse (text_or_empty r) = PyDict d ->
  (gemini issued (PromptImage PLANT_PROMPT image) = Replied r ->
   dict_mem d "plant" = false ->
   analyze_plant gemini open_rgb file language issued
   = (Raise (HTTPException 422 "AI could not extract plant details. Try a clearer image."),
      (issued ++ [PromptImage PLANT_PROMPT image])%list))
  /\ (gemini issued (PromptImage SOIL_PROMPT image) = Replied r ->
      dict_mem d "soil" = false ->
      analyze_soil gemini open_rgb file language issued
      = (Raise (HTTPException 422 "AI could not extract soil details. Try a clearer image."),
         (issued ++ [PromptImage SOIL_PROMPT image])%list))
  /\ (gemini issued (PromptImage PEST_PROMPT image) = Replied r ->
      dict_mem d "pest" = false ->
      analyze_pest gemini open_rgb file language issued
      = (Raise (HTTPException 422 "AI could not extract pest details. Try a clearer image."),
         (issued ++ [PromptImage PEST_PROMPT image])%list)).
Proof.
  intros Hread Hopen Hdata.
  repeat split; intros Hreply Hmem.
  - unfold analyze_plant, endpoint_errors, try_catch, bind at 1.
    rewrite load_image_cases, Hread, Hopen.
    unfold ask_gemini_json, bind at 1. unfold bind at 1.
    rewrite generate_content_cases, Hreply. unfold ret at 1.
    unfold bind at 1. now rewrite Hdata, require_root_missing.
  - unfold analyze_soil, endpoint_errors, try_catch, bind at 1.
    rewrite load_image_cases, Hread, Hopen.
    unfold ask_gemini_json, bind at 1. unfold bind at 1.
    rewrite generate_content_cases, Hreply. unfold ret at 1.
    unfold bind at 1. now rewrite Hdata, require_root_missing.
  - unfold analyze_pest, endpoint_errors, try_catch, bind at 1.
    rewrite load_image_cases, Hread, Hopen.
    unfold ask_gemini_json, bind at 1. unfold bind at 1.
    rewrite generate_content_cases, Hreply. unfold ret at 1.
    unfold bind at 1. now rewrite Hdata, require_root_missing.
Qed.

(** C2, at the failing input.  When the model replies with the text [42]
    the extractor hands the integer 42 to the endpoint; the membership test
    on it raises, and each analysis endpoint answers with status 500, for
    any upload that decodes and any language. *)
Theorem analysis_of_bare_value_is_500
        (file : UploadFile) (language : string) (issued : list request)
        (bytes : string) (image : PILImage) :
  read file = Ok bytes ->
  open_rgb bytes = Some image ->
  (gemini issued (PromptImage PLANT_PROMPT image) = Replied (Some "42") ->
   analyze_plant gemini open_rgb file language issued
   = (Raise (HTTPException 500 "Failed to analyze plant image."),
      (issued ++ [PromptImage PLANT_PROMPT image])%list))
  /\ (gemini issued (PromptImage SOIL_PROMPT image) = Replied (Some "42") ->
      analyze_soil gemini open_rgb file language issued
      = (Raise (HTTPException 500 "Failed to analyze soil image."),
         (issued ++ [PromptImage SOIL_PROMPT image])%list))
  /\ (gemini issued (PromptImage PEST_PROMPT image) = Replied (Some "42") ->
      analyze_pest gemini open_rgb file language issued
      = (Raise (HTTPException 500 "Failed to analyze pest image."),
         (issued ++ [PromptImage PEST_PROMPT image])%list)).
Proof.
  intros Hread Hopen.
  assert (Hdata : safe_json_parse (text_or_empty (Some "42")) = PyInt 42)
    by reflexivity.
  assert (Hroot : forall key detail st,
             require_root (PyInt 42) key detail st = (Raise TypeError, st))
    by reflexivity.
  repeat split; intros Hreply.
  - unfold analyze_plant, endpoint_errors, try_catch, bind at 1.
    rewrite load_image_cases, Hread, Hopen.
    unfold ask_gemini_json, bind at 1. unfold bind at 1.
    rewrite generate_content_cases, Hreply. unfold ret at 1.
    unfold bind at 1. now rewrite Hdata, Hroot.
  - unfold analyze_soil, endpoint_errors, try_catch, bind at 1.
    rewrite load_image_cases, Hread, Hopen.
    unfold ask_gemini_json, bind at 1. unfold bind at 1.
    rewrite generate_content_cases, Hreply. unfold ret at 1.
    unfold bind at 1. now rewrite Hdata, Hroot.
  - unfold analyze_pest, endpoint_errors, try_catch, bind at 1.
    rewrite load_image_cases, Hread, Hopen.
    unfold ask_gemini_json, bind at 1. unfold bind at 1.
    rewrite generate_content_cases, Hreply. unfold ret at 1.
    unfold bind at 1. now rewrite Hdata, Hroot.
Qed.

(** ** The frame of the translation phase *)

Lemma dict_get_set_other (d : dict) (key k : string) (v : value) :
  k <> key -> dict_get (dict_set d key v) k = dict_get d k.
Proof.
  intros Hk. induction d as [|[k' v'] d IH]; simpl.
  - destruct (String.eqb key k) eqn:E; [|reflexivity].
    apply String.eqb_eq in E. congruence.
  - destruct (String.eqb k' key) eqn:E; simpl.
    + apply String.eqb_eq in E as ->.
      destruct (String.eqb key k) eqn:E'; [|reflexivity].
      apply String.eqb_eq in E'. congruence.
    + now rewrite IH.
Qed.

Lemma dict_get_set_same (d : dict) (key : string) (v : value) :
  dict_get (dict_set d key v) key = Some v.
Proof.
  induction d as [|[k' v'] d IH]; simpl.
  - now rewrite String.eqb_refl.
  - destruct (String.eqb k' key) eqn:E; simpl.
    + now rewrite String.eqb_refl.
    + now rewrite E.
Qed.

Lemma same_outside_set (d : dict) (key : string) (v : value) :
  same_outside [key] (PyDict d) (PyDict (dict_set d key v)).
Proof.
  exists d, (dict_set d key v). repeat split.
  intros k Hk. apply dict_get_set_other. intros ->. apply Hk. now left.
Qed.

Lemma same_outside_trans (ks1 ks2 : list string) (a b c : value) :
  same_outside ks1 a b -> same_outside ks2 b c -> same_outside (ks1 ++ ks2)%list a c.
Proof.
  intros (d & d1 & -> & -> & H1) (d1' & d2 & E & -> & H2).
  injection E as <-. exists d, d2. repeat split.
  intros k Hk. rewrite H2, H1; [reflexivity| |]; intros Hin; apply Hk, in_or_app; auto.
Qed.

Lemma same_outside_refl (keys : list string) (d : dict) :
  same_outside keys (PyDict d) (PyDict d).
Proof. exists d, d. repeat split. Qed.

Lemma endpoint_errors_Ok (detail : string) (body : M value) st v st' :
  endpoint_errors detail body st = (Ok v, st') -> body st = (Ok v, st').
Proof.
  unfold endpoint_errors, try_catch.
  destruct (body st) as [[a|e] s]; [auto|]. destruct e; discriminate.
Qed.

Ltac bind_inv H x :=
  let st := fresh "st" in
  let E := fresh "E" x in
  apply bind_Ok in H as (x & st & E & H); cbv beta zeta in H.

Ltac lift_inv H x :=
  let st := fresh "st" in
  let E := fresh "E" x in
  apply bind_Ok in H as (x & st & E & H); cbv beta zeta in H;
  apply lift_Ok in E as [E ->].

Lemma translate_field_frame (language key : string) (it : value) st it' st' :
  translate_field gemini language key it st = (Ok it', st') ->
  same_outside [key] it it'.
Proof.
  unfold translate_field. intros H.
  lift_inv H old. bind_inv H new. apply lift_Ok in H as [H _].
  destruct it; try discriminate. simpl in H. injection H as <-.
  apply same_outside_set.
Qed.

Lemma translate_list_field_frame (language key : string) (it : value) st it' st' :
  translate_list_field gemini language key it st = (Ok it', st') ->
  same_outside [key] it it'.
Proof.
  unfold translate_list_field. intros H.
  lift_inv H old. bind_inv H new. apply lift_Ok in H as [H _].
  destruct it; try discriminate. simpl in H. injection H as <-.
  apply same_outside_set.
Qed.

Lemma translate_issue_frame (language : string) (it : value) st it' st' :
  translate_issue gemini language it st = (Ok it', st') ->
  same_outside ["name"; "type"; "severity"; "evidence"] it it'.
Proof.
  unfold translate_issue. intros H.
  bind_inv H it1. bind_inv H it2. bind_inv H it3.
  apply translate_field_frame in Eit1, Eit2, Eit3.
  apply translate_list_field_frame in H.
  exact (same_outside_trans ["name"] _ _ _ _ Eit1
           (same_outside_trans ["type"] _ _ _ _ Eit2
              (same_outside_trans ["severity"] _ _ _ _ Eit3 H))).
Qed.

Lemma translate_chemical_frame (language : string) (c : value) st c' st' :
  translate_chemical gemini language c st = (Ok c', st') ->
  same_outside ["product"; "dose"; "notes"] c c'.
Proof.
  unfold translate_chemical. intros H.
  bind_inv H c1. bind_inv H c2.
  apply translate_field_frame in Ec1, Ec2, H.
  exact (same_outside_trans ["product"] _ _ _ _ Ec1
           (same_outside_trans ["dose"] _ _ _ _ Ec2 H)).
Qed.

Lemma translate_organic_frame (language : string) (o : value) st o' st' :
  translate_organic gemini language o st = (Ok o', st') ->
  same_outside ["method"; "dose"; "notes"] o o'.
Proof.
  unfold translate_organic. intros H.
  bind_inv H o1. bind_inv H o2.
  apply translate_field_frame in Eo1, Eo2, H.
  exact (same_outside_trans ["method"] _ _ _ _ Eo1
           (same_outside_trans ["dose"] _ _ _ _ Eo2 H)).
Qed.

Lemma mapM_Forall2 {A B} (R : A -> B -> Prop) (f : A -> M B) :
  (forall x st y st', f x st = (Ok y, st') -> R x y) ->
  forall l st ys st', mapM f l st = (Ok ys, st') -> Forall2 R l ys.
Proof.
  intros Hf. induction l as [|x l IH]; intros st ys st' H; simpl in H.
  - apply ret_Ok in H as [-> _]. constructor.
  - bind_inv H y. bind_inv H zs. apply ret_Ok in H as [-> _].
    constructor; eauto.
Qed.

Lemma for_each_frame (keys : list string) (body : value -> M value) :
  (forall x st y st', body x st = (Ok y, st') -> same_outside keys x y) ->
  forall o st o' st',
    for_each o body st = (Ok o', st') -> translated_items keys o o'.
Proof.
  intros Hbody o st o' st' H. unfold for_each in H.
  lift_inv H items. bind_inv H items'. apply ret_Ok in H as [-> _].
  destruct o; try reflexivity.
  simpl in Eitems. injection Eitems as <-.
  exists items'. split; [reflexivity|].
  exact (mapM_Forall2 _ _ Hbody _ _ _ _ Eitems').
Qed.

Lemma translated_items_falsy (keys : list string) (t : value) :
  truthy t = false -> translated_items keys t t.
Proof.
  destruct t; try reflexivity. destruct items; [|discriminate].
  intros _. exists []. split; [reflexivity | constructor].
Qed.

Lemma for_each_at_frame (key : string) (keys : list string) (body : value -> M value) :
  (forall x st y st', body x st = (Ok y, st') -> same_outside keys x y) ->
  forall o st o' st',
    for_each_at o key body st = (Ok o', st') ->
    same_outside [key] o o' /\ translated_under key keys o o'.
Proof.
  intros Hbody o st o' st' H. unfold for_each_at in H.
  lift_inv H target.
  destruct o as [| | | | | |d]; try discriminate.
  simpl in Etarget. injection Etarget as Etarget.
  destruct (truthy target) eqn:Htruthy.
  - bind_inv H target'. apply lift_Ok in H as [H _].
    simpl in H. injection H as <-.
    split; [apply same_outside_set|].
    exists d, (dict_set d key target'). repeat split.
    destruct (dict_get d key) as [t|] eqn:Hget.
    + subst target. exists target'. split; [apply dict_get_set_same|].
      exact (for_each_frame keys body Hbody _ _ _ _ Etarget').
    + subst target. discriminate.
  - apply ret_Ok in H as [-> _].
    split; [apply same_outside_refl|].
    exists d, d. repeat split.
    destruct (dict_get d key) as [t|] eqn:Hget; [|reflexivity].
    exists t. split; [reflexivity|]. subst target.
    now apply translated_items_falsy.
Qed.

Lemma translated_under_then (key other : string) (keys : list string) (a b c : value) :
  key <> other ->
  translated_under key keys a b -> same_outside [other] b c ->
  translated_under key keys a c.
Proof.
  intros Hne (d & d1 & -> & -> & H1) (d1' & d2 & E & -> & H2).
  injection E as <-. exists d, d2. repeat split.
  rewrite H2; [exact H1|]. intros [Hin|[]]. congruence.
Qed.

Lemma translated_under_after (key other : string) (keys : list string) (a b c : value) :
  key <> other ->
  same_outside [other] a b -> translated_under key keys b c ->
  translated_under key keys a c.
Proof.
  intros Hne (d & d1 & -> & -> & H1) (d1' & d2 & E & -> & H2).
  injection E as <-. exists d, d2. repeat split.
  rewrite <- H1; [exact H2|]. intros [Hin|[]]. congruence.
Qed.

(** The data an endpoint got, from the two steps that produce it. *)
Lemma analysis_data_intro (prompt : string) (file : UploadFile) issued image st1 data st2 :
  load_image open_rgb file issued = (Ok image, st1) ->
  ask_gemini_json gemini prompt image st1 = (Ok data, st2) ->
  analysis_data gemini open_rgb prompt file issued data.
Proof.
  rewrite load_image_cases. intros Hload Hask.
  destruct (read file) as [bytes|e] eqn:Hread; [|discriminate].
  destruct (open_rgb bytes) as [image'|] eqn:Hopen; [|discriminate].
  injection Hload as -> <-.
  unfold ask_gemini_json in Hask. bind_inv Hask resp.
  apply ret_Ok in Hask as [-> _].
  rewrite generate_content_cases in Eresp.
  destruct (gemini issued (PromptImage prompt image)) as [|r] eqn:Hreply; [discriminate|].
  injection Eresp as -> _.
  now exists bytes, image, resp.
Qed.

(** C5, as amended.  Of a successful analysis, the translation phase
    rewrites the summary, the prevention list and, item by item, the named
    keys of the issues, of the chemical and organic treatments and of the
    fertilizer plan: [name], [type], [severity] and [evidence] of an issue,
    [product], [dose] and [notes] of a chemical or fertilizer item,
    [method], [dose] and [notes] of an organic item.  Every other key of
    those items and of the treatment mapping is as the model gave it, and
    the sub-mappings [plant], [soil], [pest], [health], [nutrients],
    [damage] and [hosts], with the numeric score and severity and the soil
    type, are returned as the model gave them. *)
Theorem translation_phase_frame
        (file : UploadFile) (language : string) (issued : list request)
        (payload : value) (issued' : list request) :
  (analyze_plant gemini open_rgb file language issued = (Ok payload, issued') ->
   exists data plant health issues issues' treatment treatment',
     analysis_data gemini open_rgb PLANT_PROMPT file issued data
     /\ py_get data "plant" (PyDict []) = Ok plant
     /\ field payload "plant" = Some plant
     /\ py_get data "health" (PyDict []) = Ok health
     /\ field payload "health" = Some health
     /\ py_get data "issues" (PyList []) = Ok issues
     /\ field payload "issues" = Some issues'
     /\ translated_items ["name"; "type"; "severity"; "evidence"] issues issues'
     /\ py_get data "treatment" (PyDict []) = Ok treatment
     /\ field payload "treatment" = Some treatment'
     /\ same_outside ["chemical"; "organic"] treatment treatment'
     /\ translated_under "chemical" ["product"; "dose"; "notes"] treatment treatment'
     /\ translated_under "organic" ["method"; "dose"; "notes"] treatment treatment')
  /\ (analyze_pest gemini open_rgb file language issued = (Ok payload, issued') ->
      exists data pest damage hosts control control',
        analysis_data gemini open_rgb PEST_PROMPT file issued data
        /\ py_get data "pest" (PyDict []) = Ok pest
        /\ field payload "pest" = Some pest
        /\ py_get data "damage" (PyDict []) = Ok damage
        /\ field payload "damage" = Some damage
        /\ py_get data "hosts" (PyDict []) = Ok hosts
        /\ field payload "hosts" = Some hosts
        /\ py_get data "control" (PyDict []) = Ok control
        /\ field payload "control" = Some control'
        /\ same_outside ["chemical"; "organic"] control control'
        /\ translated_under "chemical" ["product"; "dose"; "notes"] control control'
        /\ translated_under "organic" ["method"; "dose"; "notes"] control control')
  /\ (analyze_soil gemini open_rgb file language issued = (Ok payload, issued') ->
      exists data soil health nutrients plan plan',
        analysis_data gemini open_rgb SOIL_PROMPT file issued data
        /\ py_get data "soil" (PyDict []) = Ok soil
        /\ field payload "soil" = Some soil
        /\ py_get data "health" (PyDict []) = Ok health
        /\ field payload "health" = Some health
        /\ py_get data "nutrients" (PyDict []) = Ok nutrients
        /\ field payload "nutrients" = Some nutrients
        /\ py_get data "fertilizer_plan" (PyList []) = Ok plan
        /\ field payload "fertilizer_plan" = Some plan'
        /\ translated_items ["product"; "dose"; "notes"] plan plan').
Proof.
  split; [|split].
  - intros H. unfold analyze_plant in H. apply endpoint_errors_Ok in H.
    bind_inv H image. bind_inv H data. bind_inv H root.
    lift_inv H plant. lift_inv H health. lift_inv H issues.
    lift_inv H treatment. lift_inv H prevention.
    lift_inv H common_name. lift_inv H scientific_name. lift_inv H score.
    lift_inv H issue_name. lift_inv H product. lift_inv H buy_url.
    bind_inv H summary. bind_inv H issues'.
    bind_inv H treatment1. bind_inv H treatment2. bind_inv H prevention'.
    apply ret_Ok in H as [-> _].
    apply (for_each_frame _ _ (translate_issue_frame language)) in Eissues'.
    apply (for_each_at_frame _ _ _ (translate_chemical_frame language)) in Etreatment1
      as [Hc1 Hc2].
    apply (for_each_at_frame _ _ _ (translate_organic_frame language)) in Etreatment2
      as [Ho1 Ho2].
    exists data, plant, health, issues, issues', treatment, treatment2.
    repeat split; try assumption; try reflexivity.
    + exact (analysis_data_intro _ _ _ _ _ _ _ Eimage Edata).
    + exact (same_outside_trans ["chemical"] ["organic"] _ _ _ Hc1 Ho1).
    + now apply (translated_under_then "chemical" "organic" _ _ treatment1).
    + now apply (translated_under_after "organic" "chemical" _ _ treatment1).
  - intros H. unfold analyze_pest in H. apply endpoint_errors_Ok in H.
    bind_inv H image. bind_inv H data. bind_inv H root.
    lift_inv H pest. lift_inv H damage. lift_inv H hosts.
    lift_inv H control. lift_inv H prevention.
    lift_inv H cname. lift_inv H sev. lift_inv H chem_first.
    bind_inv H summary.
    bind_inv H control1. bind_inv H control2. bind_inv H prevention'.
    lift_inv H buy_url.
    apply ret_Ok in H as [-> _].
    apply (for_each_at_frame _ _ _ (translate_chemical_frame language)) in Econtrol1
      as [Hc1 Hc2].
    apply (for_each_at_frame _ _ _ (translate_organic_frame language)) in Econtrol2
      as [Ho1 Ho2].
    exists data, pest, damage, hosts, control, control2.
    repeat split; try assumption; try reflexivity.
    + exact (analysis_data_intro _ _ _ _ _ _ _ Eimage Edata).
    + exact (same_outside_trans ["chemical"] ["organic"] _ _ _ Hc1 Ho1).
    + now apply (translated_under_then "chemical" "organic" _ _ control1).
    + now apply (translated_under_after "organic" "chemical" _ _ control1).
  - intros H. unfold analyze_soil in H. apply endpoint_errors_Ok in H.
    bind_inv H image. bind_inv H data. bind_inv H root.
    lift_inv H soil. lift_inv H health. lift_inv H nutrients.
    lift_inv H suitable_crops. lift_inv H recommendations. lift_inv H plan.
    lift_inv H soil_type. lift_inv H ph. lift_inv H om. lift_inv H crops.
    bind_inv H summary. bind_inv H suitable_crops'. bind_inv H recommendations'.
    bind_inv H plan'. lift_inv H product. lift_inv H buy_url.
    apply ret_Ok in H as [-> _].
    apply (for_each_frame _ _ (translate_chemical_frame language)) in Eplan'.
    exists data, soil, health, nutrients, plan, plan'.
    repeat split; try assumption; try reflexivity.
    exact (analysis_data_intro _ _ _ _ _ _ _ Eimage Edata).
Qed.

End Properties.

(* ================================================================== *)
(** * Examples and counterexamples *)

Lemma translate_text_passthrough_witness :
  translate_text (scripted []) (PyStr "Namaste") "en" [] = (Ok (PyStr "Namaste"), [])
  /\ translate_text (scripted []) (PyStr EmptyString) "hi" [] = (Ok (PyStr EmptyString), []).
Proof.
  split.
  - exact (proj1 (translate_text_passthrough (scripted []) (PyStr "Namaste") "en" []
                    (or_introl eq_refl))).
  - exact (proj1 (translate_text_passthrough (scripted []) (PyStr EmptyString) "hi" []
                    (or_intror eq_refl))).
Defined.

Lemma translate_text_on_failure_witness :
  scripted [Failed] [] (Prompt (translate_prompt (PyStr "Hello") "hi")) = Failed
  /\ fst (translate_text (scripted [Failed]) (PyStr "Hello") "hi" []) = Ok (PyStr "Hello").
Proof.
  split; [reflexivity|].
  exact (proj1 (translate_text_on_failure (scripted [Failed]) (PyStr "Hello") "hi" [])
           eq_refl).
Defined.

(** C3, as stated, fails.  A reply whose text is empty, or [None], is not
    an exception: the translator returns the empty string, not the text it
    was given. *)
Lemma translate_text_empty_reply :
  fst (translate_text (scripted [Replied (Some EmptyString)]) (PyStr "Hello") "hi" [])
  = Ok (PyStr EmptyString)
  /\ fst (translate_text (scripted [Replied None]) (PyStr "Hello") "hi" [])
     = Ok (PyStr EmptyString).
Proof. split; reflexivity. Qed.


Lemma validate_image_gate_witness :
  fst (validate_image (scripted []) Some sample_upload "en" []) = Ok validation_failed.
Proof.
  apply (proj1 (proj2 (validate_image_gate (scripted []) Some sample_upload "en" []))).
  right. right. exists "image-bytes", "image-bytes". repeat split; reflexivity.
Defined.

Lemma analyze_plant_tomato_witness :
  exists payload,
    fst (analyze_plant (answering tomato_reply EmptyString) Some sample_upload "en" [])
    = Ok (PyDict payload)
    /\ dict_get payload "medicine_links" = Some (PyDict [("url", PyStr mancozeb_url)]).
Proof.
  destruct (analyze_plant_tomato (answering tomato_reply EmptyString) Some
              sample_upload [] "image-bytes" "image-bytes" eq_refl eq_refl eq_refl)
    as (payload & summary & Hrun & _ & _ & _ & _ & _ & _ & Hlink).
  exists payload. split; [now rewrite Hrun | exact Hlink].
Defined.

Lemma analysis_of_bare_value_is_500_witness :
  safe_json_parse "42" = PyInt 42
  /\ py_in "plant" (PyInt 42) = Raise TypeError
  /\ fst (analyze_plant (answering "42" EmptyString) Some sample_upload "hi" [])
     = Raise (HTTPException 500 "Failed to analyze plant image.")
  /\ fst (analyze_soil (answering "42" EmptyString) Some sample_upload "hi" [])
     = Raise (HTTPException 500 "Failed to analyze soil image.")
  /\ fst (analyze_pest (answering "42" EmptyString) Some sample_upload "hi" [])
     = Raise (HTTPException 500 "Failed to analyze pest image.").
Proof.
  destruct (analysis_of_bare_value_is_500 (answering "42" EmptyString) Some
              sample_upload "hi" [] "image-bytes" "image-bytes" eq_refl eq_refl)
    as (Hplant & Hsoil & Hpest).
  split; [reflexivity|]. split; [reflexivity|]. split; [|split].
  - now rewrite (Hplant eq_refl).
  - now rewrite (Hsoil eq_refl).
  - now rewrite (Hpest eq_refl).
Defined.

(** C5, as stated, fails.  With the target language [hi] the [type] tag of
    an issue, like its [severity], comes back as the provider's
    translation; the numeric health score is untouched. *)
Lemma issue_type_is_translated :
  exists payload,
    fst (analyze_plant (answering issue_reply "rog") Some sample_upload "hi" [])
    = Ok payload
    /\ field (safe_json_parse issue_reply) "issues"
       = Some (PyList [PyDict [("name", PyStr "Blight");
                               ("type", PyStr "disease");
                               ("severity", PyStr "mild")]])
    /\ field payload "issues"
       = Some (PyList [PyDict [("name", PyStr "rog");
                               ("type", PyStr "rog");
                               ("severity", PyStr "rog");
                               ("evidence", PyList [])]])
    /\ field payload "health" = Some (PyDict [("score", PyInt 80)]).
Proof. eexists. repeat split; vm_compute; reflexivity. Qed.

Lemma translation_phase_frame_witness :
  analyze_plant (answering issue_reply "rog") Some sample_upload "hi" []
  = (Ok issue_payload, issue_requests)
  /\ field issue_payload "health" = Some (PyDict [("score", PyInt 80)]).
Proof.
  assert (H : analyze_plant (answering issue_reply "rog") Some sample_upload "hi" []
              = (Ok issue_payload, issue_requests)) by (vm_compute; reflexivity).
  split; [exact H|].
  destruct (proj1 (translation_phase_frame (answering issue_reply "rog") Some
                     sample_upload "hi" [] issue_payload issue_requests) H)
    as (data & plant & health & issues & issues' & treatment & treatment'
        & Hdata & _ & _ & Hhealth & Hfield & _).
  rewrite Hfield. f_equal.
  destruct Hdata as (bytes & image & r & _ & _ & Hreply & ->).
  injection Hreply as <-. vm_compute in Hhealth. now injection Hhealth as <-.
Defined.
